(** * Verification of the deterministic pipeline of [app.py]

    The class [SalesLetterGenerator] of [src/app.py] has three pure
    operations: [detect_prohibited_words] (the scrubber),
    [search_knowledge] (the knowledge selector) and the prompt construction
    at the head of [generate_sales_letter].  They are embedded here as Rocq
    functions and the properties of the specification are stated on them.

    Python [str] values are modelled as [string] (a sequence of characters).
    The embedding covers ASCII text: [str.lower], [str.upper] and
    [str.capitalize] act on the letters A-Z / a-z as Python does on code
    points below 128, and every other character is left alone. *)

From Stdlib Require Import Bool Arith Lia List NArith ZArith Ascii String.
Import ListNotations.

Local Open Scope string_scope.
Local Open Scope list_scope.

(** ** Python exceptions and results *)

Inductive exn : Type :=
| KeyError
| TypeError
| AttributeError.

Inductive result (A : Type) : Type :=
| Ok (a : A)
| Raise (e : exn).

Arguments Ok {A} a.
Arguments Raise {A} e.

Definition bind {A B : Type} (r : result A) (k : A -> result B) : result B :=
  match r with
  | Ok a => k a
  | Raise e => Raise e
  end.

Notation "x <- r ;; k" := (bind r (fun x => k))
  (at level 61, r at next level, right associativity).

(** ** String primitives of Python used by the program *)

Module PyStr.

(** Case mapping of one character, ASCII range. *)
Definition is_upper (c : ascii) : bool :=
  let n := N_of_ascii c in (65 <=? n)%N && (n <=? 90)%N.

Definition is_lower (c : ascii) : bool :=
  let n := N_of_ascii c in (97 <=? n)%N && (n <=? 122)%N.

Definition lower_char (c : ascii) : ascii :=
  if is_upper c then ascii_of_N (N_of_ascii c + 32) else c.

Definition upper_char (c : ascii) : ascii :=
  if is_lower c then ascii_of_N (N_of_ascii c - 32) else c.

(** [s.lower()] *)
Fixpoint lower (s : string) : string :=
  match s with
  | EmptyString => EmptyString
  | String c s' => String (lower_char c) (lower s')
  end.

(** [s.capitalize()]: first character upper-cased, the rest lower-cased. *)
Definition capitalize (s : string) : string :=
  match s with
  | EmptyString => EmptyString
  | String c s' => String (upper_char c) (lower s')
  end.

(** [needle in hay] on strings: substring test. *)
Fixpoint contains (needle hay : string) : bool :=
  prefix needle hay ||
  match hay with
  | EmptyString => false
  | String _ hay' => contains needle hay'
  end.

(** [s.replace("", new)]: [new] before every character and at the end. *)
Fixpoint intersperse (new s : string) : string :=
  match s with
  | EmptyString => new
  | String c s' => new ++ String c (intersperse new s')
  end.

(** Left-to-right scan of [s.replace(old, new)] for a non-empty [old];
    [skip] counts the characters of a match still to be dropped. *)
Fixpoint replace_from (old new : string) (skip : nat) (s : string) : string :=
  match s with
  | EmptyString => EmptyString
  | String c s' =>
      match skip with
      | S k => replace_from old new k s'
      | O =>
          if prefix old s
          then new ++ replace_from old new (String.length old - 1) s'
          else String c (replace_from old new 0 s')
      end
  end.

(** [s.replace(old, new)]: every leftmost non-overlapping occurrence. *)
Definition replace (s old new : string) : string :=
  match old with
  | EmptyString => intersperse new s
  | String _ _ => replace_from old new 0 s
  end.

(** All non-empty suffixes of a string, longest first. *)
Fixpoint tails (s : string) : list string :=
  match s with
  | EmptyString => []
  | String _ s' => s :: tails s'
  end.

(** Two strings agree as far as the shorter one goes. *)
Definition compatible (x y : string) : bool := prefix x y || prefix y x.

(** [clash a b]: an occurrence of [b] can begin inside [a] when [a] is
    followed by some text (it fits in [a] or runs over its end). *)
Definition clash (a b : string) : bool :=
  existsb (fun x => compatible x b) (tails a).

(** [has_char x s]: the character [x] occurs in [s]. *)
Fixpoint has_char (x : ascii) (s : string) : bool :=
  match s with
  | EmptyString => false
  | String c s' => Ascii.eqb x c || has_char x s'
  end.

End PyStr.

(** ** Values loaded from the YAML configuration files

    [yaml.safe_load] returns untyped Python data.  The scrubber reads its
    rules out of such a value, and every access can raise. *)

#[warnings="-register-all"] Inductive yaml : Type :=
| YNull
| YBool (b : bool)
| YInt (z : Z)
| YStr (s : string)
| YSeq (l : list yaml)
| YMap (m : list (yaml * yaml)).

Module Py.

(** Entry of a dict under a [str] key; a key of another type never equals
    a [str]. *)
Fixpoint dict_find (key : string) (m : list (yaml * yaml)) : option yaml :=
  match m with
  | [] => None
  | (YStr k, v) :: m' => if String.eqb k key then Some v else dict_find key m'
  | _ :: m' => dict_find key m'
  end.

(** [v[key]] *)
Definition subscript (v : yaml) (key : string) : result yaml :=
  match v with
  | YMap m =>
      match dict_find key m with
      | Some x => Ok x
      | None => Raise KeyError
      end
  | _ => Raise TypeError
  end.

(** [v.get(key, default)] *)
Definition get (v : yaml) (key : string) (default : yaml) : result yaml :=
  match v with
  | YMap m =>
      match dict_find key m with
      | Some x => Ok x
      | None => Ok default
      end
  | _ => Raise AttributeError
  end.

Fixpoint chars (s : string) : list yaml :=
  match s with
  | EmptyString => []
  | String c s' => YStr (String c EmptyString) :: chars s'
  end.

(** The elements a [for] loop over [v] visits. *)
Definition iterate (v : yaml) : result (list yaml) :=
  match v with
  | YSeq l => Ok l
  | YMap m => Ok (map fst m)
  | YStr s => Ok (chars s)
  | _ => Raise TypeError
  end.

(** [s.replace(old, new)] where [new] comes from the configuration. *)
Definition replace (s old : string) (new : yaml) : result string :=
  match new with
  | YStr n => Ok (PyStr.replace s old n)
  | _ => Raise TypeError
  end.

(** [v.capitalize()] *)
Definition capitalize (v : yaml) : result string :=
  match v with
  | YStr s => Ok (PyStr.capitalize s)
  | _ => Raise AttributeError
  end.

(** A [for] loop whose body may raise. *)
Fixpoint for_each {S A : Type} (body : S -> A -> result S)
    (xs : list A) (st : S) : result S :=
  match xs with
  | [] => Ok st
  | x :: xs' => st' <- body st x ;; for_each body xs' st'
  end.

End Py.

(** ** The prohibited-word scrubber ([detect_prohibited_words]) *)

Module Scrubber.

(** One iteration of the loop of lines 43-48.  [word.lower()] raises
    [AttributeError] unless [word] is a [str]. *)
Definition scrub_step (prohibited_config : yaml) (text : string)
    (st : string * list yaml) (word : yaml) : result (string * list yaml) :=
  let '(clean_text, detected_words) := st in
  match word with
  | YStr w =>
      if PyStr.contains (PyStr.lower w) (PyStr.lower text) then
        let detected_words := detected_words ++ [word] in
        replacements <- Py.subscript prohibited_config "replacements" ;;
        replacement <- Py.get replacements w word ;;
        clean_text <- Py.replace clean_text w replacement ;;
        cap <- Py.capitalize replacement ;;
        Ok (PyStr.replace clean_text (PyStr.capitalize w) cap, detected_words)
      else Ok (clean_text, detected_words)
  | _ => Raise AttributeError
  end.

Definition detect_prohibited_words (prohibited_config : yaml) (text : string)
    : result (string * list yaml) :=
  words <- Py.subscript prohibited_config "prohibited_words" ;;
  ws <- Py.iterate words ;;
  Py.for_each (scrub_step prohibited_config text) ws (text, []).

(** *** Well-formed rule configurations

    A mapping with a sequence of strings under [prohibited_words] and a
    mapping with string values under [replacements]. *)

Definition is_str (v : yaml) : bool :=
  match v with YStr _ => true | _ => false end.

Definition well_formed (cfg : yaml) : bool :=
  match cfg with
  | YMap m =>
      match Py.dict_find "prohibited_words" m, Py.dict_find "replacements" m with
      | Some (YSeq ws), Some (YMap rs) =>
          forallb is_str ws && forallb (fun kv => is_str (snd kv)) rs
      | _, _ => false
      end
  | _ => false
  end.

Fixpoint strs (l : list yaml) : list string :=
  match l with
  | [] => []
  | YStr s :: l' => s :: strs l'
  | _ :: l' => strs l'
  end.

(** The terms of a configuration, in rule order. *)
Definition words_of (cfg : yaml) : list string :=
  match cfg with
  | YMap m =>
      match Py.dict_find "prohibited_words" m with
      | Some (YSeq ws) => strs ws
      | _ => []
      end
  | _ => []
  end.

(** The replacement configured for a term, the term itself by default. *)
Definition replacement_of (cfg : yaml) (w : string) : string :=
  match cfg with
  | YMap m =>
      match Py.dict_find "replacements" m with
      | Some (YMap rs) =>
          match Py.dict_find w rs with
          | Some (YStr r) => r
          | _ => w
          end
      | _ => w
      end
  | _ => w
  end.

(** The configuration file with the given terms and replacement pairs. *)
Definition rule_config (words : list string) (repl : list (string * string))
    : yaml :=
  YMap [ (YStr "prohibited_words", YSeq (map YStr words));
         (YStr "replacements",
          YMap (map (fun kv => (YStr (fst kv), YStr (snd kv))) repl)) ].

(** The term is found in the original text, whatever the case. *)
Definition detected_in (text w : string) : bool :=
  PyStr.contains (PyStr.lower w) (PyStr.lower text).

(** The loop over typed rules: what the code computes on a well-formed
    configuration. *)
Definition scrub_rule (repl : string -> string) (text : string)
    (st : string * list string) (w : string) : string * list string :=
  if detected_in text w then
    (PyStr.replace (PyStr.replace (fst st) w (repl w))
                   (PyStr.capitalize w) (PyStr.capitalize (repl w)),
     snd st ++ [w])
  else st.

Definition scrub (words : list string) (repl : string -> string)
    (text : string) : string * list string :=
  fold_left (scrub_rule repl text) words (text, []).

(** *** The replacement as the specification words it

    One pass over the text: an occurrence of the term becomes the
    replacement, an occurrence of the term with only its first character
    upper-cased becomes the capitalised replacement, every other character
    is copied. *)

Definition upper_first (s : string) : string :=
  match s with
  | EmptyString => EmptyString
  | String c s' => String (PyStr.upper_char c) s'
  end.

Fixpoint rewrite_from (t r T R : string) (skip : nat) (s : string) : string :=
  match s with
  | EmptyString => EmptyString
  | String c s' =>
      match skip with
      | S k => rewrite_from t r T R k s'
      | O =>
          if prefix t s
          then r ++ rewrite_from t r T R (String.length t - 1) s'
          else if prefix T s
          then R ++ rewrite_from t r T R (String.length T - 1) s'
          else String c (rewrite_from t r T R 0 s')
      end
  end.

Definition scrub_as_specified (t r text : string) : string :=
  rewrite_from t r (upper_first t) (PyStr.capitalize r) 0 text.

(** No proper non-empty suffix of the term is a prefix of it. *)
Definition unbordered (t : string) : bool :=
  match t with
  | EmptyString => true
  | String _ t' => negb (existsb (fun x => prefix x t) (PyStr.tails t'))
  end.

(** The rule cannot interfere with itself: occurrences of the term do not
    overlap, and no occurrence of the capitalised term can begin or end
    inside an inserted replacement. *)
Definition separable (t r : string) : bool :=
  unbordered t
  && negb (PyStr.clash (upper_first t) r)
  && negb (PyStr.clash r (upper_first t)).

(** The typed state of the loop as the values the code holds. *)
Definition lift (st : string * list string) : string * list yaml :=
  (fst st, map YStr (snd st)).

End Scrubber.

(** ** The knowledge selector ([search_knowledge]) *)

Record knowledge_item : Type := {
  id : string;
  title : string;
  content : string;
  tags : list string
}.

Module Knowledge.

(** [item['tags']] *)
Definition item_tags (item : knowledge_item) : list string := item.(tags).

(** Truth value of the [tags] argument: [None] and the empty list are
    false. *)
Definition truthy_tags (tags : option (list string)) : bool :=
  match tags with
  | Some (_ :: _) => true
  | _ => false
  end.

(** Truth value of the [query] argument: [None] and [""] are false. *)
Definition truthy_query (query : option string) : bool :=
  match query with
  | Some (String _ _) => true
  | _ => false
  end.

(** [query.lower()]; [None] has no such method. *)
Definition query_lower (query : option string) : result string :=
  match query with
  | Some q => Ok (PyStr.lower q)
  | None => Raise AttributeError
  end.

(** [any(tag in item['tags'] for tag in tags)] *)
Definition any_tag (tags : option (list string)) (item : knowledge_item)
    : bool :=
  match tags with
  | Some ts => existsb (fun tag => existsb (String.eqb tag) (item_tags item)) ts
  | None => false
  end.

(** The condition of the [elif] of line 60.  Python reads
    [query and A or B] as [(query and A) or B]: [B] is evaluated whenever
    [query and A] is false, also when [query] itself is. *)
Definition query_condition (query : option string) (item : knowledge_item)
    : result bool :=
  left <- (if truthy_query query
           then lq <- query_lower query ;;
                Ok (PyStr.contains lq (PyStr.lower item.(title)))
           else Ok false) ;;
  if left : bool then Ok true
  else lq <- query_lower query ;;
       Ok (PyStr.contains lq (PyStr.lower item.(content))).

Definition search_step (tags : option (list string)) (query : option string)
    (results : list knowledge_item) (item : knowledge_item)
    : result (list knowledge_item) :=
  if truthy_tags tags then
    if any_tag tags item then Ok (results ++ [item]) else Ok results
  else
    c <- query_condition query item ;;
    if c : bool then Ok (results ++ [item]) else Ok results.

Definition search_knowledge (knowledge_items : list knowledge_item)
    (tags : option (list string)) (query : option string)
    : result (list knowledge_item) :=
  Py.for_each (search_step tags query) knowledge_items [].

(** The item shares a tag with the query set. *)
Definition shares_tag (ts : list string) (item : knowledge_item) : bool :=
  existsb (fun tag => existsb (String.eqb tag) (item_tags item)) ts.

(** The query occurs in the title or in the content, whatever the case. *)
Definition matches_query (q : string) (item : knowledge_item) : bool :=
  PyStr.contains (PyStr.lower q) (PyStr.lower item.(title))
  || PyStr.contains (PyStr.lower q) (PyStr.lower item.(content)).

End Knowledge.

(** ** The prompt of [generate_sales_letter] *)

Record product_details : Type := {
  name : string;
  type : string;
  features : string;
  uvp : string
}.

Record audience_details : Type := {
  primary : string;
  pain_points : string;
  desired_outcomes : string
}.

Record customization : Type := {
  tone : string;
  length : string;
  emphasis : string
}.

Module Prompt.

Definition nl : string := String (ascii_of_nat 10) EmptyString.

(** The header of the reference-knowledge section; the code writes it
    followed by a line end (line 71). *)
Definition header : string := "RELEVANT COPYWRITING KNOWLEDGE:".

(** [next((item for item in knowledge_items if item['id'] == knowledge_id),
    None)] *)
Definition lookup (knowledge_items : list knowledge_item)
    (knowledge_id : string) : option knowledge_item :=
  find (fun item => String.eqb item.(id) knowledge_id) knowledge_items.

(** The text one snippet adds (line 75). *)
Definition entry (item : knowledge_item) : string :=
  nl ++ item.(title) ++ ":" ++ nl ++ item.(content) ++ nl.

(** Lines 69-75. *)
Definition knowledge_context (knowledge_items : list knowledge_item)
    (selected_knowledge : list string) : string :=
  match selected_knowledge with
  | [] => EmptyString
  | _ :: _ =>
      fold_left
        (fun ctx knowledge_id =>
           match lookup knowledge_items knowledge_id with
           | Some item => (ctx ++ entry item)%string
           | None => ctx
           end)
        selected_knowledge (header ++ nl)%string
  end.

Definition indent : string := "        ".

(** One line of the template: the indentation of the source, the text,
    a line end. *)
Definition line (s : string) : string := indent ++ s ++ nl.

(** The template before the knowledge context (lines 77-95). *)
Definition prompt_head (p : product_details) (a : audience_details)
    (c : customization) : string :=
  nl
  ++ line "Generate a high-converting sales letter with the following specifications:"
  ++ line ""
  ++ line "PRODUCT DETAILS:"
  ++ line ("- Name: " ++ p.(name))
  ++ line ("- Type: " ++ p.(type))
  ++ line ("- Key Features: " ++ p.(features))
  ++ line ("- Unique Value Proposition: " ++ p.(uvp))
  ++ line ""
  ++ line "TARGET AUDIENCE:"
  ++ line ("- Primary Audience: " ++ a.(primary))
  ++ line ("- Pain Points: " ++ a.(pain_points))
  ++ line ("- Desired Outcomes: " ++ a.(desired_outcomes))
  ++ line ""
  ++ line "CUSTOMIZATION:"
  ++ line ("- Tone: " ++ c.(tone))
  ++ line ("- Length: " ++ c.(length))
  ++ line ("- Key Emphasis: " ++ c.(emphasis))
  ++ line "".

(** The template after the knowledge context (lines 97-109). *)
Definition prompt_tail : string :=
  line ""
  ++ line "REQUIREMENTS:"
  ++ line "1. Structure the letter with clear sections"
  ++ line "2. Use persuasive copywriting techniques"
  ++ line "3. Include emotional triggers"
  ++ line "4. Create a compelling narrative"
  ++ line "5. End with strong call-to-action"
  ++ line "6. Format in Markdown with clear headings"
  ++ line ""
  ++ line "IMPORTANT: Avoid using any marketing hype or exaggerated claims. Focus on genuine value and benefits."
  ++ line ""
  ++ line "Generate the sales letter:"
  ++ indent.

(** The value of [prompt] handed to the generation service (line 112). *)
Definition prompt (knowledge_items : list knowledge_item)
    (p : product_details) (a : audience_details) (c : customization)
    (selected_knowledge : list string) : string :=
  prompt_head p a c
  ++ line (knowledge_context knowledge_items selected_knowledge)
  ++ prompt_tail.

(** The reference-knowledge lines of a list of snippets, in list order. *)
Definition section_of (snippets : list knowledge_item) : string :=
  fold_right (fun item acc => (entry item ++ acc)%string) EmptyString
    snippets.

(** The ten values the user supplies, in template order. *)
Definition field_values (p : product_details) (a : audience_details)
    (c : customization) : list string :=
  [ p.(name); p.(type); p.(features); p.(uvp);
    a.(primary); a.(pain_points); a.(desired_outcomes);
    c.(tone); c.(length); c.(emphasis) ].

End Prompt.

(** ** Code of [main] around the three operations *)

Module Main.

(** Lines 221-224: the identifiers of the results whose checkbox is
    ticked; a checkbox is keyed by the identifier of its item. *)
Definition selected_ids (knowledge_results : list knowledge_item)
    (checked : string -> bool) : list string :=
  map id (filter (fun item => checked item.(id)) knowledge_results).

(** Line 357: the name of the Markdown download. *)
Definition markdown_filename (timestamp : string) : string :=
  "sales_letter_" ++ timestamp ++ ".md".

(** Line 370: the name of the text download,
    [filename.replace('.md', '.txt')]. *)
Definition text_filename (timestamp : string) : string :=
  PyStr.replace (markdown_filename timestamp) ".md" ".txt".

(** The snippets the loop of lines 72-75 finds for a selection: the
    identifiers that resolve, in selection order. *)
Definition resolved (knowledge_items : list knowledge_item)
    (selected_knowledge : list string) : list knowledge_item :=
  flat_map
    (fun knowledge_id =>
       match Prompt.lookup knowledge_items knowledge_id with
       | Some item => [item]
       | None => []
       end)
    selected_knowledge.

End Main.

(** ** The session of the wizard ([main], lines 132-319)

    Streamlit runs [main] from the top at every interaction; a run is
    triggered by at most one button, and a button can only be pressed when
    the run before has put it on the page.  The session state survives
    between runs.  A run is modelled by [handle]: the button pressed, with
    the values of the widgets, and the session state before give the
    session state after and what the run displays; [None] when the session
    state shows that the button is not on the page.  (The audience form is
    also cut short when the search of line 219 raises; that depends on the
    tags the widget holds, which are no part of the session state.)  The
    configuration files are taken to load and to have the entries the page
    reads. *)

(** [st.session_state.form_data]: a dict that only ever holds the keys
    below; a key that is not set is [None]. *)
Module Form.

Record form_data : Type := {
  product_name : option string;
  product_type : option string;
  key_features : option string;
  uvp : option string;
  primary_audience : option string;
  pain_points : option string;
  desired_outcomes : option string;
  selected_knowledge : option (list string);
  tone : option string;
  length : option string;
  emphasis : option string
}.

(** The initial [{}] of line 136. *)
Definition empty : form_data :=
  Build_form_data None None None None None None None None None None None.

(** The [update] of lines 184-189. *)
Definition update_product (fd : form_data)
    (name type features value : string) : form_data :=
  Build_form_data (Some name) (Some type) (Some features) (Some value)
    fd.(primary_audience) fd.(pain_points) fd.(desired_outcomes)
    fd.(selected_knowledge) fd.(tone) fd.(length) fd.(emphasis).

(** The [update] of lines 230-235. *)
Definition update_audience (fd : form_data)
    (audience pains outcomes : string) (ids : list string) : form_data :=
  Build_form_data fd.(product_name) fd.(product_type) fd.(key_features)
    fd.(uvp) (Some audience) (Some pains) (Some outcomes) (Some ids)
    fd.(tone) fd.(length) fd.(emphasis).

(** The [update] of lines 260-264. *)
Definition update_style (fd : form_data) (t l e : string) : form_data :=
  Build_form_data fd.(product_name) fd.(product_type) fd.(key_features)
    fd.(uvp) fd.(primary_audience) fd.(pain_points) fd.(desired_outcomes)
    fd.(selected_knowledge) (Some t) (Some l) (Some e).

End Form.

Module Session.

(** What the [try] block of lines 278-316 can raise. *)
Inductive failure : Type :=
| MissingKey (key : string)
| GenerationFailed (message : string)
| ScrubFailed (e : exn).

Inductive outcome (A : Type) : Type :=
| Returned (a : A)
| Failed (f : failure).

Arguments Returned {A} a.
Arguments Failed {A} f.

Definition and_then {A B : Type} (o : outcome A) (k : A -> outcome B)
    : outcome B :=
  match o with
  | Returned a => k a
  | Failed f => Failed f
  end.

(** [form_data[key]] *)
Definition item (value : option string) (key : string) : outcome string :=
  match value with
  | Some s => Returned s
  | None => Failed (MissingKey key)
  end.

(** Truth value of a string in [all([...])]. *)
Definition filled (s : string) : bool :=
  match s with
  | EmptyString => false
  | String _ _ => true
  end.

(** What a run shows besides the page: nothing, an [st.error] message, or
    the exception that ended the run. *)
Inductive display : Type :=
| Quiet
| Error (message : string)
| Uncaught (e : exn).

Section App.

(** Measured durations ([time.time()] differences). *)
Variable time : Type.

(** [config['ui']['steps']], the catalog, the rules, the generation
    service (the text of the response, or the message of the exception it
    raises) and the message of a built-in exception. *)
Variable steps : list string.
Variable knowledge_items : list knowledge_item.
Variable prohibited_config : yaml.
Variable service : string -> string + string.
Variable describe : exn -> string.

Record state : Type := {
  current_step : Z;
  form_data : Form.form_data;
  generated_letter : option string;
  generation_time : option time;
  detected_words : option (list yaml);
  selected_knowledge : option (list string)
}.

(** Lines 132-140; [detected_words] and [selected_knowledge] are not set
    before the first successful generation. *)
Definition initial : state :=
  {| current_step := 0; form_data := Form.empty;
     generated_letter := None; generation_time := None;
     detected_words := None; selected_knowledge := None |}.

Definition set_step (st : state) (n : Z) : state :=
  {| current_step := n; form_data := st.(form_data);
     generated_letter := st.(generated_letter);
     generation_time := st.(generation_time);
     detected_words := st.(detected_words);
     selected_knowledge := st.(selected_knowledge) |}.

Definition set_form (st : state) (fd : Form.form_data) : state :=
  {| current_step := st.(current_step); form_data := fd;
     generated_letter := st.(generated_letter);
     generation_time := st.(generation_time);
     detected_words := st.(detected_words);
     selected_knowledge := st.(selected_knowledge) |}.

(** Lines 313-316. *)
Definition store (st : state) (clean : string) (elapsed : time)
    (detected : list yaml) (ids : list string) : state :=
  {| current_step := st.(current_step); form_data := st.(form_data);
     generated_letter := Some clean; generation_time := Some elapsed;
     detected_words := Some detected; selected_knowledge := Some ids |}.

(** Lines 111-115 of [generate_sales_letter]: the text of the response,
    or an exception whose message wraps the cause. *)
Definition generate_sales_letter (p : product_details)
    (a : audience_details) (c : customization) (ids : list string)
    : outcome string :=
  match service (Prompt.prompt knowledge_items p a c ids) with
  | inl text => Returned text
  | inr cause => Failed (GenerationFailed ("Generation failed: " ++ cause))
  end.

(** The body of the [try] of lines 279-307. *)
Definition attempt (fd : Form.form_data)
    : outcome (string * list yaml * list string) :=
  and_then (item fd.(Form.product_name) "product_name") (fun name =>
  and_then (item fd.(Form.product_type) "product_type") (fun type =>
  and_then (item fd.(Form.key_features) "key_features") (fun features =>
  and_then (item fd.(Form.uvp) "uvp") (fun value =>
  and_then (item fd.(Form.primary_audience) "primary_audience") (fun primary =>
  and_then (item fd.(Form.pain_points) "pain_points") (fun pains =>
  and_then (item fd.(Form.desired_outcomes) "desired_outcomes") (fun outcomes =>
  and_then (item fd.(Form.tone) "tone") (fun t =>
  and_then (item fd.(Form.length) "length") (fun l =>
  and_then (item fd.(Form.emphasis) "emphasis") (fun e =>
  let ids :=
    match fd.(Form.selected_knowledge) with
    | Some ids => ids
    | None => []
    end in
  and_then
    (generate_sales_letter
       (Build_product_details name type features value)
       (Build_audience_details primary pains outcomes)
       (Build_customization t l e) ids)
    (fun sales_letter =>
  match Scrubber.detect_prohibited_words prohibited_config sales_letter with
  | Ok (clean_letter, detected) => Returned (clean_letter, detected, ids)
  | Raise e => Failed (ScrubFailed e)
  end))))))))))).

(** [str(e)] for the exception caught at line 318. *)
Definition message_of (f : failure) : string :=
  match f with
  | MissingKey key => "'" ++ key ++ "'"
  | GenerationFailed message => message
  | ScrubFailed e => describe e
  end.

Inductive event : Type :=
| Previous
| Next
| SaveProduct (product_name product_type key_features uvp : string)
| SaveAudience (primary_audience pain_points desired_outcomes : string)
    (selected_tags : list string) (checked : string -> bool)
| ShowStyle (tone length emphasis : string)
| Generate (tone length emphasis : string) (elapsed : time).

(** The page down to the form of step [k + 1] is rendered: line 144
    divides by [len(steps)], and lines 164, 197 and 243 read [steps[k]]. *)
Definition step_shown (st : state) (k : nat) : bool :=
  (st.(current_step) =? Z.of_nat k)%Z && (k <? List.length steps)%nat.

(** One run of the script triggered by a button.  The buttons of the
    navigation are on the page when line 144 does not raise; the button of
    a form is on the page when its step is shown.  A run that changes the
    step ends in [st.rerun()]; the run that follows has no button, and at
    step 3 it is [ShowStyle] with the values the select boxes show. *)
Definition handle (ev : event) (st : state) : option (state * display) :=
  let step := st.(current_step) in
  match ev with
  | Previous =>
      if negb (List.length steps =? 0)%nat && (0 <? step)%Z
      then Some (set_step st (step - 1), Quiet) else None
  | Next =>
      if negb (List.length steps =? 0)%nat
         && (step <? Z.of_nat (List.length steps) - 1)%Z
      then Some (set_step st (step + 1), Quiet) else None
  | SaveProduct name type features value =>
      if step_shown st 0 then
        if filled name && filled features && filled value
        then Some (set_step
                     (set_form st
                        (Form.update_product st.(form_data) name type
                           features value)) 1, Quiet)
        else Some (st, Error "Please fill in all required fields (*)")
      else None
  | SaveAudience audience pains outcomes selected_tags checked =>
      if step_shown st 1 then
        match Knowledge.search_knowledge knowledge_items
                (Some selected_tags) None with
        | Raise e => Some (st, Uncaught e)
        | Ok knowledge_results =>
            if filled audience && filled pains && filled outcomes
            then Some (set_step
                         (set_form st
                            (Form.update_audience st.(form_data) audience
                               pains outcomes
                               (Main.selected_ids knowledge_results checked)))
                         2, Quiet)
            else Some (st, Error "Please fill in all required fields (*)")
        end
      else None
  | ShowStyle t l e =>
      if step_shown st 2
      then Some (set_form st (Form.update_style st.(form_data) t l e), Quiet)
      else None
  | Generate t l e elapsed =>
      if step_shown st 2 then
        let st := set_form st (Form.update_style st.(form_data) t l e) in
        match attempt st.(form_data) with
        | Returned (clean_letter, detected, ids) =>
            Some (store st clean_letter elapsed detected ids, Quiet)
        | Failed f =>
            Some (st, Error ("Generation failed: " ++ message_of f))
        end
      else None
  end.

(** The four attributes written at lines 313-316 and read by the result
    display of lines 322-344. *)
Definition results_of (st : state) :=
  (st.(generated_letter), st.(generation_time), st.(detected_words),
   st.(selected_knowledge)).

(** Line 322: the result section is on the page when [generated_letter]
    is true, that is set and not the empty string. *)
Definition results_shown (st : state) : bool :=
  match st.(generated_letter) with
  | Some (String _ _) => true
  | _ => false
  end.

(** The session states the wizard can be in. *)
Inductive reachable : state -> Prop :=
| reachable_initial : reachable initial
| reachable_run (st st' : state) (ev : event) (d : display) :
    reachable st -> handle ev st = Some (st', d) -> reachable st'.

End App.

End Session.

(** ** Sample data: the catalog and the inputs of the end-to-end scenario *)

Definition sample_item_1 : knowledge_item :=
  {| id := "k1"; title := "Scarcity"; content := "Limited offers";
     tags := ["urgency"; "scarcity"] |}.

Definition sample_item_2 : knowledge_item :=
  {| id := "k2"; title := "Testimonials"; content := "Quote customers";
     tags := ["social-proof"] |}.

Definition sample_product : product_details :=
  {| name := "Focus Planner"; type := "Digital Product";
     features := "daily templates"; uvp := "built by productivity coaches" |}.

Definition sample_audience : audience_details :=
  {| primary := "remote workers"; pain_points := "distraction";
     desired_outcomes := "more deep work" |}.

Definition sample_style : customization :=
  {| tone := "confident"; length := "short"; emphasis := "benefits" |}.

Definition sample_steps : list string :=
  ["Product Details"; "Target Audience"; "Generate"].

Definition sample_rules : yaml :=
  Scrubber.rule_config ["synergy"] [("synergy", "teamwork")].

(** A stub of the generation service, one that answers with the empty
    text, and one that is out of quota. *)
Definition silent_service (prompt : string) : string + string :=
  inl "".

Definition stub_service (prompt : string) : string + string :=
  inl "Draft letter mentioning synergy.".

Definition failing_service (prompt : string) : string + string :=
  inr "quota exceeded".

Definition sample_describe (e : exn) : string :=
  match e with
  | KeyError => "KeyError"
  | TypeError => "TypeError"
  | AttributeError => "AttributeError"
  end.

(** The session after the two forms of the end-to-end scenario. *)
Definition sample_session : Session.state nat :=
  {| Session.current_step := 2;
     Session.form_data :=
       Form.update_audience
         (Form.update_product Form.empty "Focus Planner" "Digital Product"
            "daily templates" "built by productivity coaches")
         "remote workers" "distraction" "more deep work" [];
     Session.generated_letter := None;
     Session.generation_time := None;
     Session.detected_words := None;
     Session.selected_knowledge := None |}.

(** * Properties *)

(** ** Evaluation on small inputs *)

Example lower_example : PyStr.lower "SynErgy 42!" = "synergy 42!".
Proof. reflexivity. Qed.

Example capitalize_example : PyStr.capitalize "aI tool" = "Ai tool".
Proof. reflexivity. Qed.

Example replace_example :
  PyStr.replace "aaa-ab-aab" "aa" "x" = "xa-ab-xb".
Proof. reflexivity. Qed.

Example replace_empty_example : PyStr.replace "ab" "" "-" = "-a-b-".
Proof. reflexivity. Qed.

Example contains_example :
  PyStr.contains "erg" "synergy" = true /\ PyStr.contains "" "" = true
  /\ PyStr.contains "gy!" "synergy" = false.
Proof. repeat split. Qed.

Example scrub_example :
  Scrubber.detect_prohibited_words
    (Scrubber.rule_config ["synergy"] [("synergy", "teamwork")])
    "Synergy and synergy, SYNERGY."
  = Ok ("Teamwork and teamwork, SYNERGY.", [YStr "synergy"]).
Proof. reflexivity. Qed.

Example scrub_missing_key_example :
  Scrubber.detect_prohibited_words (YMap []) "text" = Raise KeyError.
Proof. reflexivity. Qed.

(** A term that is not a string has no [lower] method; a replacement that
    is not a string is refused by [str.replace]; both only when reached. *)
Example scrub_ill_formed_examples :
  Scrubber.detect_prohibited_words
    (YMap [(YStr "prohibited_words", YSeq [YInt 42]);
           (YStr "replacements", YMap [])]) "text"
  = Raise AttributeError
  /\ Scrubber.detect_prohibited_words
       (YMap [(YStr "prohibited_words", YSeq [YStr "hype"]);
              (YStr "replacements", YMap [(YStr "hype", YNull)])])
       "Pure hype."
     = Raise TypeError
  /\ Scrubber.detect_prohibited_words
       (YMap [(YStr "prohibited_words", YSeq [YStr "hype"]);
              (YStr "replacements", YMap [(YStr "hype", YNull)])])
       "Plain text."
     = Ok ("Plain text.", []).
Proof. repeat split. Qed.

Example search_examples :
  Knowledge.search_knowledge [sample_item_1; sample_item_2]
    (Some ["urgency"]) None = Ok [sample_item_1]
  /\ Knowledge.search_knowledge [sample_item_1; sample_item_2]
       None (Some "QUOTE") = Ok [sample_item_2]
  /\ Knowledge.search_knowledge [sample_item_1; sample_item_2]
       (Some []) None = Raise AttributeError.
Proof. repeat split. Qed.

(** ** The knowledge selector *)

Section Selector.

Import Knowledge.

Variable knowledge_items : list knowledge_item.

Lemma truthy_tags_cons (t : string) (ts : list string) :
  truthy_tags (Some (t :: ts)) = true.
Proof. reflexivity. Qed.

Lemma truthy_tags_nonempty (ts : list string) :
  ts <> [] -> truthy_tags (Some ts) = true.
Proof. destruct ts; [congruence | reflexivity]. Qed.

(** In tag mode the loop is a filter, whatever the accumulator and the
    query. *)
Lemma tag_loop (ts : list string) (query : option string) :
  ts <> [] ->
  forall (items acc : list knowledge_item),
    Py.for_each (search_step (Some ts) query) items acc
    = Ok (acc ++ filter (shares_tag ts) items).
Proof.
  intros Hne items.
  induction items as [|item items IH]; intros acc; simpl.
  - now rewrite app_nil_r.
  - unfold search_step at 1.
    rewrite (truthy_tags_nonempty ts Hne).
    unfold any_tag, shares_tag.
    destruct (existsb _ ts) eqn:E; simpl; rewrite IH.
    + now rewrite <- app_assoc.
    + reflexivity.
Qed.

(** In query mode with a non-empty query the loop is a filter too. *)
Lemma query_condition_nonempty (c : ascii) (q : string)
    (item : knowledge_item) :
  query_condition (Some (String c q)) item
  = Ok (matches_query (String c q) item).
Proof.
  unfold query_condition, matches_query; simpl.
  destruct (PyStr.contains _ (PyStr.lower (title item))); reflexivity.
Qed.

Lemma query_loop (tags : option (list string)) (c : ascii) (q : string) :
  truthy_tags tags = false ->
  forall (items acc : list knowledge_item),
    Py.for_each (search_step tags (Some (String c q))) items acc
    = Ok (acc ++ filter (matches_query (String c q)) items).
Proof.
  intros Ht items.
  induction items as [|item items IH]; intros acc; simpl.
  - now rewrite app_nil_r.
  - unfold search_step at 1. rewrite Ht, query_condition_nonempty.
    cbn [bind]. destruct (matches_query _ item); cbn [bind]; rewrite IH.
    + now rewrite <- app_assoc.
    + reflexivity.
Qed.

(** With the empty string as query, [query and A] is false and the right
    operand of [or] decides: the empty string is in every content. *)
Lemma contains_empty (s : string) : PyStr.contains "" s = true.
Proof. destruct s; reflexivity. Qed.

Lemma query_condition_empty (item : knowledge_item) :
  query_condition (Some "") item = Ok true.
Proof.
  unfold query_condition; simpl. now rewrite contains_empty.
Qed.

Lemma empty_query_loop (tags : option (list string)) :
  truthy_tags tags = false ->
  forall (items acc : list knowledge_item),
    Py.for_each (search_step tags (Some "")) items acc = Ok (acc ++ items).
Proof.
  intros Ht items.
  induction items as [|item items IH]; intros acc; simpl.
  - now rewrite app_nil_r.
  - unfold search_step at 1. rewrite Ht, query_condition_empty.
    cbn [bind]. rewrite IH. now rewrite <- app_assoc.
Qed.

Lemma shares_tag_spec (ts : list string) (item : knowledge_item) :
  shares_tag ts item = true
  <-> exists tag, In tag ts /\ In tag item.(tags).
Proof.
  unfold shares_tag, item_tags. rewrite existsb_exists. split.
  - intros (tag & Hin & Hex). apply existsb_exists in Hex.
    destruct Hex as (tag' & Hin' & Heq). apply String.eqb_eq in Heq.
    subst tag'. now exists tag.
  - intros (tag & Hin & Hin'). exists tag. split; [assumption|].
    apply existsb_exists. exists tag. split; [assumption|].
    apply String.eqb_refl.
Qed.

(** Query mode proper: a non-empty query selects the items in which it
    occurs, in catalog order. *)
Lemma search_by_query (tags : option (list string)) (c : ascii) (q : string) :
  truthy_tags tags = false ->
  search_knowledge knowledge_items tags (Some (String c q))
  = Ok (filter (matches_query (String c q)) knowledge_items).
Proof.
  intros Ht. unfold search_knowledge. now rewrite (query_loop tags c q Ht).
Qed.

(** C7: for a non-empty tag set the search returns, in catalog order, the
    items that share at least one tag with the set (any one tag is
    enough), and only those. *)
Theorem search_by_tags (ts : list string) (query : option string) :
  ts <> [] ->
  search_knowledge knowledge_items (Some ts) query
  = Ok (filter (shares_tag ts) knowledge_items)
  /\ (forall item,
        In item (filter (shares_tag ts) knowledge_items)
        <-> In item knowledge_items
            /\ exists tag, In tag ts /\ In tag item.(tags)).
Proof.
  intros Hne. split.
  - unfold search_knowledge. now rewrite (tag_loop ts query Hne).
  - intros item. rewrite filter_In, shares_tag_spec. reflexivity.
Qed.

(** C10: once a tag is selected the query has no influence on the result:
    any two queries give the same list. *)
Theorem tags_take_precedence (ts : list string) (q1 q2 : option string) :
  ts <> [] ->
  search_knowledge knowledge_items (Some ts) q1
  = search_knowledge knowledge_items (Some ts) q2.
Proof.
  intros Hne. unfold search_knowledge.
  now rewrite (tag_loop ts q1 Hne), (tag_loop ts q2 Hne).
Qed.

End Selector.

Lemma search_by_tags_witness :
  Knowledge.search_knowledge [sample_item_1; sample_item_2]
    (Some ["urgency"]) None
  = Ok [sample_item_1].
Proof.
  exact (proj1 (search_by_tags [sample_item_1; sample_item_2] ["urgency"]
                  None ltac:(discriminate))).
Defined.

Lemma tags_take_precedence_witness :
  Knowledge.search_knowledge [sample_item_1; sample_item_2]
    (Some ["urgency"]) None
  = Knowledge.search_knowledge [sample_item_1; sample_item_2]
      (Some ["urgency"]) (Some "quote").
Proof.
  exact (tags_take_precedence [sample_item_1; sample_item_2] ["urgency"]
           None (Some "quote") ltac:(discriminate)).
Defined.

(** C1: the call of line 219, [search_knowledge(tags=selected_tags)] with
    nothing selected, on a catalog that has an item: the [elif] evaluates
    [query.lower()] on [None] and the call raises; with the empty string as
    query the whole catalog comes back.  The empty list is returned only
    for the empty catalog. *)
Theorem search_empty_tags_no_query (item : knowledge_item)
    (rest : list knowledge_item) :
  Knowledge.search_knowledge (item :: rest) (Some []) None
  = Raise AttributeError
  /\ Knowledge.search_knowledge (item :: rest) None None
     = Raise AttributeError
  /\ Knowledge.search_knowledge (item :: rest) (Some []) (Some "")
     = Ok (item :: rest)
  /\ Knowledge.search_knowledge [] (Some []) None = Ok [].
Proof.
  repeat split.
  unfold Knowledge.search_knowledge.
  now rewrite (empty_query_loop (Some []) eq_refl).
Qed.

(** C2: in query mode the empty query returns the whole catalog, not the
    empty list. *)
Theorem search_empty_query (knowledge_items : list knowledge_item) :
  Knowledge.search_knowledge knowledge_items None (Some "")
  = Ok knowledge_items
  /\ Knowledge.search_knowledge knowledge_items (Some []) (Some "")
     = Ok knowledge_items.
Proof.
  unfold Knowledge.search_knowledge.
  now rewrite (empty_query_loop None eq_refl), (empty_query_loop (Some []) eq_refl).
Qed.

(** ** The scrubber on well-formed configurations *)

Section ScrubberRefinement.

Import Scrubber.

Lemma dict_find_str (rs : list (yaml * yaml)) (w : string) (v : yaml) :
  forallb (fun kv => is_str (snd kv)) rs = true ->
  Py.dict_find w rs = Some v -> is_str v = true.
Proof.
  induction rs as [|[k x] rs IH]; simpl; [discriminate|].
  intros H Hf. apply andb_prop in H. destruct H as [Hx Hrs].
  destruct k; try (now apply IH).
  destruct (String.eqb s w); [|now apply IH].
  now injection Hf as <-.
Qed.

Lemma well_formed_inv (cfg : yaml) :
  well_formed cfg = true ->
  exists m ws rs,
    cfg = YMap m
    /\ Py.dict_find "prohibited_words" m = Some (YSeq ws)
    /\ Py.dict_find "replacements" m = Some (YMap rs)
    /\ forallb is_str ws = true
    /\ forallb (fun kv => is_str (snd kv)) rs = true.
Proof.
  destruct cfg as [| | | | |m]; try discriminate. simpl.
  destruct (Py.dict_find "prohibited_words" m) as [[| | | |ws|]|] eqn:Hw;
    try discriminate.
  destruct (Py.dict_find "replacements" m) as [[| | | | |rs]|] eqn:Hr;
    try discriminate.
  intros H. apply andb_prop in H. destruct H as [H1 H2].
  exists m, ws, rs. repeat split; assumption.
Qed.

(** One iteration on a string term agrees with the typed step. *)
Lemma scrub_step_refines (cfg : yaml) (text w : string)
    (st : string * list string) :
  well_formed cfg = true ->
  scrub_step cfg text (lift st) (YStr w)
  = Ok (lift (scrub_rule (replacement_of cfg) text st w)).
Proof.
  intros Hwf. destruct (well_formed_inv cfg Hwf)
    as (m & ws & rs & -> & Hw & Hr & Hws & Hrs).
  destruct st as [c d]. unfold scrub_step, scrub_rule, detected_in, lift.
  cbn [fst snd].
  destruct (PyStr.contains (PyStr.lower w) (PyStr.lower text)); [|reflexivity].
  unfold Py.subscript, replacement_of. rewrite Hr. cbn [bind Py.get].
  destruct (Py.dict_find w rs) as [v|] eqn:Hv.
  - pose proof (dict_find_str rs w v Hrs Hv) as Hs.
    destruct v; try discriminate. cbn.
    now rewrite map_app.
  - cbn. now rewrite map_app.
Qed.

Lemma scrub_loop_refines (cfg : yaml) (text : string) (ws : list yaml) :
  well_formed cfg = true ->
  forallb is_str ws = true ->
  forall st : string * list string,
    Py.for_each (scrub_step cfg text) ws (lift st)
    = Ok (lift (fold_left (scrub_rule (replacement_of cfg) text)
                  (strs ws) st)).
Proof.
  intros Hwf. induction ws as [|v ws IH]; intros Hws st.
  - reflexivity.
  - simpl in Hws. apply andb_prop in Hws. destruct Hws as [Hv Hws].
    destruct v; try discriminate.
    cbn [Py.for_each strs fold_left].
    rewrite (scrub_step_refines cfg text s st Hwf). cbn [bind].
    now apply IH.
Qed.

(** On a well-formed configuration the function returns what the loop over
    typed rules computes. *)
Lemma detect_refines (cfg : yaml) (text : string) :
  well_formed cfg = true ->
  detect_prohibited_words cfg text
  = Ok (lift (scrub (words_of cfg) (replacement_of cfg) text)).
Proof.
  intros Hwf. destruct (well_formed_inv cfg Hwf)
    as (m & ws & rs & E & Hw & Hr & Hws & Hrs).
  unfold detect_prohibited_words, scrub, words_of.
  subst cfg. unfold Py.subscript. rewrite Hw. cbn [bind Py.iterate].
  change (text, @nil yaml) with (lift (text, [])).
  now apply scrub_loop_refines.
Qed.

Lemma rule_config_well_formed (words : list string)
    (repl : list (string * string)) :
  well_formed (rule_config words repl) = true.
Proof.
  unfold well_formed, rule_config. cbn.
  apply andb_true_intro. split.
  - induction words; simpl; auto.
  - induction repl; simpl; auto.
Qed.

Lemma rule_config_words (words : list string)
    (repl : list (string * string)) :
  words_of (rule_config words repl) = words.
Proof.
  unfold words_of, rule_config. cbn.
  induction words; simpl; congruence.
Qed.

(** The detection list of the typed loop: the terms found in the original
    text, appended in rule order. *)
Lemma scrub_detected (repl : string -> string) (text : string)
    (words : list string) (st : string * list string) :
  snd (fold_left (scrub_rule repl text) words st)
  = snd st ++ filter (detected_in text) words.
Proof.
  revert st. induction words as [|w words IH]; intros st; simpl.
  - now rewrite app_nil_r.
  - rewrite IH. unfold scrub_rule.
    destruct (detected_in text w); simpl.
    + now rewrite <- app_assoc.
    + reflexivity.
Qed.

Lemma scrub_nothing_detected (repl : string -> string) (text : string)
    (words : list string) (st : string * list string) :
  (forall w, In w words -> detected_in text w = false) ->
  fold_left (scrub_rule repl text) words st = st.
Proof.
  revert st. induction words as [|w words IH]; intros st H; simpl.
  - reflexivity.
  - unfold scrub_rule at 2. rewrite (H w (or_introl eq_refl)).
    apply IH. intros w' Hin. apply H. now right.
Qed.

Lemma count_occ_filter_le (f : string -> bool) (l : list string)
    (w : string) :
  count_occ string_dec (filter f l) w <= count_occ string_dec l w.
Proof.
  induction l as [|x l IH]; simpl; [lia|].
  destruct (f x); simpl; destruct (string_dec x w); lia.
Qed.

End ScrubberRefinement.






(** C6: on a well-formed rule configuration the scrubber returns a pair
    for every text; no access raises, whether terms are found or not. *)
Theorem scrub_total (cfg : yaml) (text : string) :
  Scrubber.well_formed cfg = true ->
  exists clean detected,
    Scrubber.detect_prohibited_words cfg text = Ok (clean, detected).
Proof.
  intros Hwf. rewrite (detect_refines cfg text Hwf).
  now eexists _, _.
Qed.

Lemma scrub_total_witness :
  exists clean detected,
    Scrubber.detect_prohibited_words
      (Scrubber.rule_config ["synergy"] [("synergy", "teamwork")])
      "No match here."
    = Ok (clean, detected).
Proof.
  apply scrub_total. reflexivity.
Defined.

(** ** Facts on strings: prefixes, occurrences, replacement *)

Section StringFacts.

Import PyStr.

Lemma append_nil_r (s : string) : (s ++ "")%string = s.
Proof. induction s; simpl; congruence. Qed.

Lemma append_assoc (a b c : string) :
  ((a ++ b) ++ c)%string = (a ++ b ++ c)%string.
Proof. induction a; simpl; congruence. Qed.

Lemma length_append (a b : string) :
  String.length (a ++ b) = String.length a + String.length b.
Proof. induction a; simpl; congruence. Qed.

Lemma prefix_empty (s : string) : prefix "" s = true.
Proof. destruct s; reflexivity. Qed.

Lemma prefix_cons (a b : ascii) (p s : string) :
  prefix (String a p) (String b s) = true <-> a = b /\ prefix p s = true.
Proof.
  simpl. destruct (ascii_dec a b) as [E|N].
  - tauto.
  - split; [discriminate | tauto].
Qed.

Lemma prefix_cons_same (a : ascii) (p s : string) :
  prefix (String a p) (String a s) = prefix p s.
Proof. simpl. destruct (ascii_dec a a); congruence. Qed.

Lemma prefix_of_empty (p : string) : prefix p "" = true -> p = "".
Proof. destruct p; [reflexivity | discriminate]. Qed.

Lemma prefix_app (p s : string) : prefix p (p ++ s) = true.
Proof.
  induction p as [|a p IH]; simpl.
  - apply prefix_empty.
  - destruct (ascii_dec a a); congruence.
Qed.

Lemma prefix_split (p s : string) :
  prefix p s = true -> exists r, s = (p ++ r)%string.
Proof.
  revert s. induction p as [|a p IH]; intros s H.
  - now exists s.
  - destruct s as [|b s]; [discriminate|].
    apply prefix_cons in H. destruct H as [<- H].
    destruct (IH s H) as [r ->]. now exists r.
Qed.

(** A prefix of [a ++ f] is a prefix of [a] or continues past it. *)
Lemma prefix_app_compatible (h a f : string) :
  prefix h (a ++ f) = true -> compatible a h = true.
Proof.
  unfold compatible. revert a.
  induction h as [|x h IH]; intros a H.
  - rewrite (prefix_empty a). apply orb_true_r.
  - destruct a as [|y a]; [reflexivity|].
    simpl in H |- *. destruct (ascii_dec x y) as [->|N]; [|discriminate].
    destruct (ascii_dec y y); [|congruence]. now apply IH.
Qed.

Lemma contains_cons (h : string) (x : ascii) (s : string) :
  contains h (String x s) = prefix h (String x s) || contains h s.
Proof. reflexivity. Qed.

Lemma contains_of_empty (h : string) : contains h "" = prefix h "".
Proof. simpl. apply orb_false_r. Qed.

(** No occurrence of [h] begins inside [c]: the search can skip it. *)
Lemma contains_skip (h c f : string) :
  clash c h = false -> contains h (c ++ f) = contains h f.
Proof.
  induction c as [|x c IH]; intros H; [reflexivity|].
  unfold clash in H. simpl in H. apply orb_false_elim in H.
  destruct H as [Hx Hc].
  change (String x c ++ f)%string with (String x (c ++ f)).
  rewrite contains_cons, (IH Hc).
  destruct (prefix h (String x (c ++ f))) eqn:E; [|reflexivity].
  apply (prefix_app_compatible h (String x c) f) in E. congruence.
Qed.

(** A character that is not in [h] cuts the search in two. *)
Lemma prefix_cut (x : ascii) (h a b : string) :
  has_char x h = false ->
  prefix h (a ++ String x b) = prefix h a.
Proof.
  revert a. induction h as [|k h IH]; intros a H.
  - now rewrite !prefix_empty.
  - simpl in H. apply orb_false_elim in H. destruct H as [Hk Hh].
    destruct a as [|y a]; simpl.
    + destruct (ascii_dec k x) as [->|N]; [|reflexivity].
      now rewrite Ascii.eqb_refl in Hk.
    + destruct (ascii_dec k y); [now apply IH | reflexivity].
Qed.

Lemma contains_cut (x : ascii) (h a b : string) :
  h <> "" -> has_char x h = false ->
  contains h (a ++ String x b) = contains h a || contains h b.
Proof.
  intros Hne Hx. induction a as [|y a IH].
  - simpl append. rewrite contains_cons, contains_of_empty.
    rewrite <- (prefix_cut x h "" b Hx). reflexivity.
  - change (String y a ++ String x b)%string
      with (String y (a ++ String x b)).
    rewrite !contains_cons, IH.
    change (String y (a ++ String x b))
      with (String y a ++ String x b)%string.
    rewrite (prefix_cut x h (String y a) b Hx).
    now rewrite orb_assoc.
Qed.

(** The search in one line of a filled template: a constant in which [h]
    cannot begin, a field, a line end that is not in [h]. *)
Lemma contains_field_line (x : ascii) (h c f rest : string) :
  h <> "" -> has_char x h = false -> clash c h = false ->
  contains h (c ++ f ++ String x rest) = contains h f || contains h rest.
Proof.
  intros Hne Hx Hc. rewrite (contains_skip h c _ Hc).
  now apply contains_cut.
Qed.

End StringFacts.

(** ** The prompt *)

Section PromptFacts.

Import Prompt.

Variable knowledge_items : list knowledge_item.

Lemma knowledge_context_empty : knowledge_context knowledge_items [] = "".
Proof. reflexivity. Qed.

(** The loop of lines 72-75 on identifiers that all resolve. *)
Lemma context_loop (ids : list string) (snippets : list knowledge_item) :
  Forall2 (fun kid item => lookup knowledge_items kid = Some item)
    ids snippets ->
  forall ctx : string,
    fold_left
      (fun ctx knowledge_id =>
         match lookup knowledge_items knowledge_id with
         | Some item => (ctx ++ entry item)%string
         | None => ctx
         end) ids ctx
    = (ctx ++ section_of snippets)%string.
Proof.
  induction 1 as [|kid item ids snippets Hk _ IH]; intros ctx; simpl.
  - now rewrite append_nil_r.
  - rewrite Hk, IH. apply append_assoc.
Qed.

(** The header has no line end in it: a line end cuts the search. *)
Lemma contains_header_line_end (f rest : string) :
  PyStr.contains header (f ++ nl ++ rest)
  = PyStr.contains header f || PyStr.contains header rest.
Proof.
  apply (contains_cut (ascii_of_nat 10) header f rest);
    [discriminate | reflexivity].
Qed.

Lemma lookup_id (kid : string) (item : knowledge_item) :
  lookup knowledge_items kid = Some item ->
  In item knowledge_items /\ item.(id) = kid.
Proof.
  unfold lookup. intros H. apply find_some in H.
  destruct H as [Hin Heq]. now apply String.eqb_eq in Heq.
Qed.

End PromptFacts.

Import Prompt.

(** C8, as amended: with nothing selected the knowledge context is empty,
    and the header is absent from the prompt whenever none of the ten
    supplied values contains it. *)
Theorem prompt_without_knowledge (knowledge_items : list knowledge_item)
    (p : product_details) (a : audience_details) (c : customization) :
  Forall (fun f => PyStr.contains header f = false) (field_values p a c) ->
  knowledge_context knowledge_items [] = ""
  /\ PyStr.contains header (prompt knowledge_items p a c []) = false.
Proof.
  intros H. split; [reflexivity|].
  unfold field_values in H.
  repeat match goal with
         | H : Forall _ (_ :: _) |- _ =>
             let E := fresh "E" in
             apply Forall_cons_iff in H; destruct H as [E H]
         end.
  unfold prompt, prompt_head, prompt_tail, line.
  rewrite knowledge_context_empty, !append_assoc.
  repeat first
    [ rewrite (contains_skip header) by reflexivity
    | rewrite contains_header_line_end ].
  rewrite E, E0, E1, E2, E3, E4, E5, E6, E7, E8.
  reflexivity.
Qed.

Lemma prompt_without_knowledge_witness :
  PyStr.contains header
    (prompt [sample_item_1] sample_product sample_audience sample_style [])
  = false.
Proof.
  apply (prompt_without_knowledge [sample_item_1] sample_product
           sample_audience sample_style).
  repeat constructor.
Defined.

(** C8, as stated, fails: a product named like the header puts the header
    in the prompt although nothing is selected. *)
Lemma prompt_header_from_input :
  ~ (forall (knowledge_items : list knowledge_item) (p : product_details)
            (a : audience_details) (c : customization),
        PyStr.contains header (prompt knowledge_items p a c []) = false).
Proof.
  intros H.
  specialize (H []
    {| name := "RELEVANT COPYWRITING KNOWLEDGE:"; type := "Course";
       features := "lessons"; uvp := "short" |}
    sample_audience sample_style).
  vm_compute in H. discriminate.
Qed.

(** C9: for a non-empty selection whose identifiers all resolve, the
    prompt carries, between the fixed head and tail of the template, the
    header followed by one entry per selected snippet in selection order;
    an entry is the title, a colon and a line end, then the content. *)
Theorem prompt_with_knowledge (knowledge_items : list knowledge_item)
    (p : product_details) (a : audience_details) (c : customization)
    (ids : list string) (snippets : list knowledge_item) :
  ids <> [] ->
  Forall2 (fun kid item => lookup knowledge_items kid = Some item)
    ids snippets ->
  prompt knowledge_items p a c ids
  = (prompt_head p a c
     ++ indent ++ (header ++ nl) ++ section_of snippets ++ nl
     ++ prompt_tail)%string
  /\ section_of snippets
     = fold_right
         (fun item acc =>
            (nl ++ item.(title) ++ ":" ++ nl ++ item.(content) ++ nl
             ++ acc)%string)
         "" snippets
  /\ Forall2 (fun kid item => In item knowledge_items /\ item.(id) = kid)
       ids snippets.
Proof.
  intros Hne Hall. split; [|split].
  - unfold prompt, line. f_equal.
    destruct ids as [|kid ids]; [congruence|].
    unfold knowledge_context.
    rewrite (context_loop knowledge_items _ _ Hall).
    now rewrite !append_assoc.
  - clear. unfold section_of.
    induction snippets as [|item snippets IH]; [reflexivity|].
    cbn [fold_right]. rewrite IH. unfold entry. now rewrite !append_assoc.
  - clear Hne. induction Hall; constructor; auto.
    now apply lookup_id.
Qed.

Lemma prompt_with_knowledge_witness :
  prompt [sample_item_1; sample_item_2] sample_product sample_audience
    sample_style ["k2"; "k1"]
  = (prompt_head sample_product sample_audience sample_style
     ++ indent ++ (header ++ nl)
     ++ section_of [sample_item_2; sample_item_1] ++ nl
     ++ prompt_tail)%string.
Proof.
  apply (prompt_with_knowledge [sample_item_1; sample_item_2]
           sample_product sample_audience sample_style
           ["k2"; "k1"] [sample_item_2; sample_item_1]).
  - discriminate.
  - repeat constructor.
Defined.

(** ** Replacement: the two passes of the code against one pass *)

Section Replacement.

Import PyStr.

Lemma prefix_length (p s : string) :
  prefix p s = true -> String.length p <= String.length s.
Proof.
  intros H. destruct (prefix_split p s H) as [x ->].
  rewrite length_append. lia.
Qed.

Lemma prefix_app_l (p a z : string) :
  prefix p a = true -> prefix p (a ++ z) = true.
Proof.
  intros H. destruct (prefix_split p a H) as [x ->].
  rewrite append_assoc. apply prefix_app.
Qed.

Lemma compatible_sym (x y : string) : compatible x y = compatible y x.
Proof. unfold compatible. apply orb_comm. Qed.

(** A prefix of [a ++ w] that is not a prefix of [a] ends in [w]. *)
Lemma prefix_app_cases (p a w : string) :
  prefix p (a ++ w) = true ->
  prefix p a = true
  \/ exists x, x <> "" /\ p = (a ++ x)%string /\ prefix x w = true.
Proof.
  revert p. induction a as [|y a IH]; intros p H.
  - destruct p as [|k p]; [left; reflexivity|].
    right. exists (String k p). repeat split; [discriminate | exact H].
  - destruct p as [|k p]; [left; reflexivity|].
    change (String y a ++ w)%string with (String y (a ++ w)) in H.
    apply prefix_cons in H. destruct H as [-> H].
    destruct (IH p H) as [Hp | (x & Hx & -> & Hw)].
    + left. now rewrite prefix_cons_same.
    + right. exists x. repeat split; assumption.
Qed.

Lemma tails_suffix (a x : string) : x <> "" -> In x (tails (a ++ x)).
Proof.
  intros Hx. induction a as [|y a IH]; simpl.
  - destruct x; [congruence | now left].
  - now right.
Qed.

Lemma clash_false (a b x : string) :
  clash a b = false -> In x (tails a) -> compatible x b = false.
Proof.
  unfold clash. intros H Hin.
  destruct (compatible x b) eqn:E; [|reflexivity].
  assert (existsb (fun x => compatible x b) (tails a) = true)
    by (apply existsb_exists; now exists x).
  congruence.
Qed.

(** *** The scan of [str.replace] *)

Lemma replace_from_unfold (old new : string) (c : ascii) (s : string) :
  replace_from old new 0 (String c s)
  = if prefix old (String c s)
    then (new ++ replace_from old new (String.length old - 1) s)%string
    else String c (replace_from old new 0 s).
Proof. reflexivity. Qed.

Lemma replace_from_skip (old new pre s : string) :
  replace_from old new (String.length pre) (pre ++ s)
  = replace_from old new 0 s.
Proof. induction pre as [|c pre IH]; simpl; auto. Qed.

Lemma replace_from_match (old new s : string) :
  old <> "" ->
  replace_from old new 0 (old ++ s)
  = (new ++ replace_from old new 0 s)%string.
Proof.
  destruct old as [|a old]; [congruence|]. intros _.
  change (String a old ++ s)%string with (String a (old ++ s)).
  rewrite replace_from_unfold.
  change (String a (old ++ s)) with (String a old ++ s)%string.
  rewrite prefix_app. cbn [String.length]. rewrite Nat.sub_1_r. cbn [pred].
  now rewrite replace_from_skip.
Qed.

Lemma replace_from_copy (old new : string) (c : ascii) (s : string) :
  prefix old (String c s) = false ->
  replace_from old new 0 (String c s)
  = String c (replace_from old new 0 s).
Proof. intros H. now rewrite replace_from_unfold, H. Qed.

(** The scan copies a stretch in which no occurrence begins. *)
Lemma replace_from_pass (old new c rest : string) :
  (forall x y, c = (y ++ x)%string -> x <> "" ->
               prefix old (x ++ rest) = false) ->
  replace_from old new 0 (c ++ rest)
  = (c ++ replace_from old new 0 rest)%string.
Proof.
  induction c as [|k c IH]; intros H; [reflexivity|].
  change (String k c ++ rest)%string with (String k (c ++ rest)).
  rewrite replace_from_copy.
  - simpl. f_equal. apply IH. intros x y -> Hx.
    apply (H x (String k y)); [reflexivity | assumption].
  - apply (H (String k c) ""); [reflexivity | discriminate].
Qed.

Lemma replace_from_pass_clash (old new c rest : string) :
  clash c old = false ->
  replace_from old new 0 (c ++ rest)
  = (c ++ replace_from old new 0 rest)%string.
Proof.
  intros H. apply replace_from_pass. intros x y -> Hx.
  destruct (prefix old (x ++ rest)) eqn:E; [|reflexivity].
  apply prefix_app_compatible in E.
  rewrite (clash_false (y ++ x) old x H (tails_suffix y x Hx)) in E.
  discriminate.
Qed.

Lemma replace_nonempty (s old new : string) :
  old <> "" -> replace s old new = replace_from old new 0 s.
Proof. destruct old; [congruence | reflexivity]. Qed.

Lemma replace_absent (s old new : string) :
  old <> "" -> contains old s = false -> replace s old new = s.
Proof.
  intros Hne H. rewrite (replace_nonempty _ _ _ Hne).
  induction s as [|c s IH]; [reflexivity|].
  rewrite contains_cons in H. apply orb_false_elim in H.
  destruct H as [Hp Hc].
  rewrite (replace_from_copy _ _ _ _ Hp). f_equal. now apply IH.
Qed.

(** Characterisation of [str.replace] at the leftmost occurrence. *)
Lemma replace_leftmost (pre old new rest : string) :
  old <> "" ->
  (forall x y, pre = (y ++ x)%string -> x <> "" ->
               prefix old (x ++ old ++ rest) = false) ->
  replace (pre ++ old ++ rest) old new
  = (pre ++ new ++ replace rest old new)%string.
Proof.
  intros Hne H. rewrite !(replace_nonempty _ _ _ Hne).
  rewrite (replace_from_pass old new pre (old ++ rest) H).
  now rewrite (replace_from_match old new rest Hne).
Qed.

End Replacement.

(** *** The one-pass replacement of the specification *)

Section OnePass.

Import PyStr Scrubber.

Lemma rewrite_from_unfold (t r T R : string) (c : ascii) (s : string) :
  rewrite_from t r T R 0 (String c s)
  = if prefix t (String c s)
    then (r ++ rewrite_from t r T R (String.length t - 1) s)%string
    else if prefix T (String c s)
    then (R ++ rewrite_from t r T R (String.length T - 1) s)%string
    else String c (rewrite_from t r T R 0 s).
Proof. reflexivity. Qed.

Lemma rewrite_from_skip (t r T R pre s : string) :
  rewrite_from t r T R (String.length pre) (pre ++ s)
  = rewrite_from t r T R 0 s.
Proof. induction pre as [|c pre IH]; simpl; auto. Qed.

Lemma rewrite_from_exact (t r T R s : string) :
  t <> "" ->
  rewrite_from t r T R 0 (t ++ s)
  = (r ++ rewrite_from t r T R 0 s)%string.
Proof.
  destruct t as [|a t]; [congruence|]. intros _.
  change (String a t ++ s)%string with (String a (t ++ s)).
  rewrite rewrite_from_unfold.
  change (String a (t ++ s)) with (String a t ++ s)%string.
  rewrite prefix_app. cbn [String.length]. rewrite Nat.sub_1_r. cbn [pred].
  now rewrite rewrite_from_skip.
Qed.

Lemma rewrite_from_cap (t r T R s : string) :
  T <> "" -> prefix t (T ++ s) = false ->
  rewrite_from t r T R 0 (T ++ s)
  = (R ++ rewrite_from t r T R 0 s)%string.
Proof.
  destruct T as [|a T]; [congruence|]. intros _ Ht.
  change (String a T ++ s)%string with (String a (T ++ s)) in Ht |- *.
  rewrite rewrite_from_unfold, Ht.
  change (String a (T ++ s)) with (String a T ++ s)%string.
  rewrite prefix_app. cbn [String.length]. rewrite Nat.sub_1_r. cbn [pred].
  now rewrite rewrite_from_skip.
Qed.

Lemma rewrite_from_copy (t r T R : string) (c : ascii) (s : string) :
  prefix t (String c s) = false -> prefix T (String c s) = false ->
  rewrite_from t r T R 0 (String c s)
  = String c (rewrite_from t r T R 0 s).
Proof. intros H1 H2. now rewrite rewrite_from_unfold, H1, H2. Qed.

(** A text without the term in either case is copied. *)
Lemma rewrite_from_absent (t r T R s : string) :
  contains t s = false -> contains T s = false ->
  rewrite_from t r T R 0 s = s.
Proof.
  induction s as [|c s IH]; intros H1 H2; [reflexivity|].
  rewrite contains_cons in H1, H2.
  apply orb_false_elim in H1. apply orb_false_elim in H2.
  rewrite rewrite_from_copy by tauto. f_equal. apply IH; tauto.
Qed.

(** The first pass creates no occurrence of [T]: one that is in its output
    was in its input, when [T] cannot run into an inserted [r]. *)
Lemma first_pass_no_new_occurrence (t r T : string) :
  clash T r = false ->
  forall s a : string,
    prefix T (a ++ replace_from t r 0 s) = true ->
    prefix T (a ++ s) = true.
Proof.
  intros Hclash. induction s as [|y s IH]; intros a H; [exact H|].
  rewrite replace_from_unfold in H.
  destruct (prefix t (String y s)) eqn:E.
  - destruct (prefix_app_cases _ _ _ H) as [Hp | (x & Hx & HT & Hw)].
    + now apply prefix_app_l.
    + apply prefix_app_compatible in Hw.
      rewrite compatible_sym in Hw.
      assert (Hin : In x (tails T)) by (rewrite HT; now apply tails_suffix).
      rewrite (clash_false T r x Hclash Hin) in Hw. discriminate.
  - replace (a ++ String y (replace_from t r 0 s))%string
      with ((a ++ String y "") ++ replace_from t r 0 s)%string in H
      by now rewrite append_assoc.
    apply IH in H. now rewrite append_assoc in H.
Qed.

End OnePass.

Section TwoPasses.

Import PyStr Scrubber.

(** The term [String c tl] and the same with another first character. *)
Variables (c C : ascii) (tl r R : string).

Local Abbreviation t := (String c tl).
Local Abbreviation T := (String C tl).

Hypothesis t_unbordered : unbordered t = true.
Hypothesis T_not_into_r : clash T r = false.
Hypothesis T_not_from_r : clash r T = false.

(** No occurrence of the term begins inside an occurrence of [T]. *)
Lemma term_not_inside_cap (s x y : string) :
  prefix t (T ++ s) = false ->
  T = (y ++ x)%string -> x <> "" ->
  prefix t (x ++ s) = false.
Proof.
  intros Hs HT Hx. destruct y as [|k y].
  - simpl in HT. now subst x.
  - injection HT as _ Htl.
    destruct (prefix t (x ++ s)) eqn:E; [|reflexivity].
    apply prefix_app_compatible in E. unfold compatible in E.
    apply orb_prop in E. destruct E as [E | E].
    + assert (Hin : In x (tails tl))
        by (rewrite Htl; now apply tails_suffix).
      assert (existsb (fun x => prefix x t) (tails tl) = true)
        by (apply existsb_exists; now exists x).
      unfold unbordered in t_unbordered.
      apply negb_true_iff in t_unbordered. congruence.
    + apply prefix_length in E. cbn [String.length] in E.
      rewrite Htl, length_append in E. lia.
Qed.

(** Replacing the term, then [T] in the result, is the one pass that
    rewrites both at once. *)
Lemma two_passes_bounded (n : nat) :
  forall s : string,
    String.length s <= n ->
    replace_from T R 0 (replace_from t r 0 s) = rewrite_from t r T R 0 s.
Proof.
  induction n as [|n IH]; intros s Hlen.
  - destruct s; [reflexivity | simpl in Hlen; lia].
  - destruct s as [|y s]; [reflexivity|].
    destruct (prefix t (String y s)) eqn:Et.
    + destruct (prefix_split _ _ Et) as [s' E]. rewrite E.
      rewrite replace_from_match, rewrite_from_exact by discriminate.
      rewrite (replace_from_pass_clash T R r _ T_not_from_r).
      f_equal. apply IH.
      apply (f_equal String.length) in E. rewrite length_append in E.
      cbn [String.length] in E, Hlen. lia.
    + destruct (prefix T (String y s)) eqn:ET.
      * destruct (prefix_split _ _ ET) as [s' E]. rewrite E in Et |- *.
        rewrite (replace_from_pass t r T s')
          by (intros x y0 HT Hx; now apply (term_not_inside_cap s' x y0)).
        rewrite replace_from_match, rewrite_from_cap
          by (discriminate || assumption).
        f_equal. apply IH.
        apply (f_equal String.length) in E. rewrite length_append in E.
        cbn [String.length] in E, Hlen. lia.
      * rewrite (replace_from_copy t r y s Et).
        rewrite (rewrite_from_copy t r T R y s Et ET).
        rewrite replace_from_copy.
        -- f_equal. apply IH. cbn [String.length] in Hlen. lia.
        -- destruct (prefix T (String y (replace_from t r 0 s))) eqn:E;
             [|reflexivity].
           apply (first_pass_no_new_occurrence t r T T_not_into_r s
                    (String y "")) in E.
           simpl in E, ET. congruence.
Qed.

Lemma two_passes (s : string) :
  replace_from T R 0 (replace_from t r 0 s) = rewrite_from t r T R 0 s.
Proof. now apply (two_passes_bounded (String.length s)). Qed.

End TwoPasses.

(** ** One rule with a lower-case term *)

Section SingleRule.

Import PyStr Scrubber.

Lemma lower_upper_char (c : ascii) : lower_char (upper_char c) = lower_char c.
Proof.
  destruct c as [b0 b1 b2 b3 b4 b5 b6 b7].
  destruct b0, b1, b2, b3, b4, b5, b6, b7; reflexivity.
Qed.

Lemma lower_upper_first (t : string) : lower (upper_first t) = lower t.
Proof. destruct t; simpl; [reflexivity|]. now rewrite lower_upper_char. Qed.

(** For a lower-case term [capitalize] only touches the first character. *)
Lemma capitalize_lower_case (t : string) :
  lower t = t -> capitalize t = upper_first t.
Proof.
  destruct t as [|c t]; [reflexivity|]. simpl. intros H.
  injection H as _ H. now rewrite H.
Qed.

Lemma prefix_lower (a b : string) :
  prefix a b = true -> prefix (lower a) (lower b) = true.
Proof.
  intros H. destruct (prefix_split a b H) as [x ->].
  assert (E : forall u v, lower (u ++ v) = (lower u ++ lower v)%string)
    by (induction u; simpl; congruence).
  rewrite E. apply prefix_app.
Qed.

(** An occurrence in the text is an occurrence under case-insensitive
    matching. *)
Lemma contains_lower (a b : string) :
  contains a b = true -> contains (lower a) (lower b) = true.
Proof.
  induction b as [|c b IH]; intros H.
  - rewrite contains_of_empty in H |- *. now apply (prefix_lower a "").
  - rewrite contains_cons in H. apply orb_prop in H.
    change (lower (String c b)) with (String (lower_char c) (lower b)).
    rewrite contains_cons. apply orb_true_intro. destruct H as [H | H].
    + left. now apply (prefix_lower a (String c b)).
    + right. now apply IH.
Qed.

Lemma not_detected_absent (text t : string) :
  detected_in text t = false ->
  contains t text = false /\ contains (upper_first t) text = false.
Proof.
  unfold detected_in. intros H. split.
  - destruct (contains t text) eqn:E; [|reflexivity].
    apply contains_lower in E. congruence.
  - destruct (contains (upper_first t) text) eqn:E; [|reflexivity].
    apply contains_lower in E. rewrite lower_upper_first in E. congruence.
Qed.

Lemma separable_inv (t r : string) :
  separable t r = true ->
  unbordered t = true
  /\ clash (upper_first t) r = false
  /\ clash r (upper_first t) = false.
Proof.
  unfold separable. intros H.
  apply andb_prop in H. destruct H as [H H3].
  apply andb_prop in H. destruct H as [H1 H2].
  apply negb_true_iff in H2, H3. auto.
Qed.

(** The typed loop on one rule. *)
Lemma scrub_one_rule (t r text : string) (repl : string -> string) :
  t <> "" -> lower t = t -> repl t = r -> separable t r = true ->
  scrub [t] repl text
  = (scrub_as_specified t r text,
     if detected_in text t then [t] else []).
Proof.
  intros Hne Hlow Hr Hsep.
  destruct (separable_inv t r Hsep) as (Hu & H1 & H2).
  unfold scrub, scrub_rule, scrub_as_specified. cbn [fold_left fst snd app].
  rewrite Hr. destruct (detected_in text t) eqn:Hd.
  - f_equal. rewrite (capitalize_lower_case t Hlow).
    destruct t as [|c tl]; [congruence|].
    rewrite !replace_nonempty by discriminate.
    now apply two_passes.
  - destruct (not_detected_absent text t Hd) as [Ha Hb].
    now rewrite rewrite_from_absent.
Qed.

End SingleRule.




Example scrub_cascade_example :
  Scrubber.detect_prohibited_words
    (Scrubber.rule_config ["best"] [("best", "Best-in-class")]) "the best"
  = Ok ("the Best-in-class-in-class", [YStr "best"])
  /\ Scrubber.scrub_as_specified "best" "Best-in-class" "the best"
     = "the Best-in-class".
Proof. split; reflexivity. Qed.

(** * Further properties of the code *)

(** ** The scrubber: errors and texts it leaves alone *)

Section ScrubberEdges.

Import PyStr Scrubber.

(** The loop on a configuration without a [replacements] entry: the first
    term that is found raises. *)
Lemma scrub_loop_no_replacements (m : list (yaml * yaml)) (text : string)
    (ws : list yaml) :
  Py.dict_find "replacements" m = None ->
  forallb is_str ws = true ->
  forall st : string * list yaml,
    Py.for_each (scrub_step (YMap m) text) ws st
    = if existsb (detected_in text) (strs ws)
      then Raise KeyError else Ok st.
Proof.
  intros Hr. induction ws as [|v ws IH]; intros Hws st; [reflexivity|].
  simpl in Hws. apply andb_prop in Hws. destruct Hws as [Hv Hws].
  destruct v; try discriminate. destruct st as [clean detected].
  cbn [Py.for_each strs existsb]. unfold scrub_step at 1, detected_in at 1.
  destruct (contains (lower s) (lower text)).
  - unfold Py.subscript. now rewrite Hr.
  - cbn [bind orb]. now apply IH.
Qed.

Lemma intersperse_empty (s : string) : intersperse "" s = s.
Proof. induction s; simpl; congruence. Qed.

Lemma replace_from_same_bounded (old : string) (n : nat) :
  old <> "" ->
  forall s, String.length s <= n -> replace_from old old 0 s = s.
Proof.
  intros Hne. induction n as [|n IH]; intros s Hlen.
  - destruct s; [reflexivity | simpl in Hlen; lia].
  - destruct s as [|c s]; [reflexivity|].
    destruct (prefix old (String c s)) eqn:E.
    + destruct (prefix_split _ _ E) as [s' Es]. rewrite Es.
      rewrite (replace_from_match old old s' Hne). f_equal. apply IH.
      apply (f_equal String.length) in Es. rewrite length_append in Es.
      destruct old; [congruence|]. cbn [String.length] in Es, Hlen. lia.
    + rewrite (replace_from_copy _ _ _ _ E). f_equal. apply IH.
      cbn [String.length] in Hlen. lia.
Qed.

(** [s.replace(old, old)] is [s]. *)
Lemma replace_same (s old : string) : replace s old old = s.
Proof.
  destruct old as [|c old].
  - apply intersperse_empty.
  - apply (replace_from_same_bounded (String c old) (String.length s));
      [discriminate | lia].
Qed.

Lemma capitalize_nonempty (w : string) : w <> "" -> capitalize w <> "".
Proof. destruct w; [congruence | discriminate]. Qed.

(** The typed loop keeps the text when every rule that fires rewrites it
    to itself. *)
Lemma scrub_text_kept (repl : string -> string) (text : string)
    (words : list string) :
  (forall w, In w words ->
     replace (replace text w (repl w)) (capitalize w) (capitalize (repl w))
     = text) ->
  forall detected,
    fold_left (scrub_rule repl text) words (text, detected)
    = (text, detected ++ filter (detected_in text) words).
Proof.
  induction words as [|w words IH]; intros H detected; simpl.
  - now rewrite app_nil_r.
  - unfold scrub_rule at 2. cbn [fst snd].
    destruct (detected_in text w).
    + rewrite (H w (or_introl eq_refl)), IH.
      * now rewrite <- app_assoc.
      * intros w' Hin. apply H. now right.
    + apply IH. intros w' Hin. apply H. now right.
Qed.

End ScrubberEdges.









(** ** The selector: errors, selections, tag sets *)

Section SelectorEdges.

Import Knowledge.

Lemma truthy_tags_inv (tags : option (list string)) :
  truthy_tags tags = true -> exists ts, tags = Some ts /\ ts <> [].
Proof.
  destruct tags as [[|t ts]|]; try discriminate.
  intros _. exists (t :: ts). split; [reflexivity | discriminate].
Qed.

Lemma truthy_query_inv (query : option string) :
  truthy_query query = false -> query = None \/ query = Some "".
Proof. destruct query as [[|c q]|]; try discriminate; auto. Qed.

(** The value of the search in each of its four modes. *)
Lemma search_cases (knowledge_items : list knowledge_item)
    (tags : option (list string)) (query : option string) :
  (exists ts, tags = Some ts /\ ts <> []
     /\ search_knowledge knowledge_items tags query
        = Ok (filter (shares_tag ts) knowledge_items))
  \/ (truthy_tags tags = false /\ exists c q, query = Some (String c q)
      /\ search_knowledge knowledge_items tags query
         = Ok (filter (matches_query (String c q)) knowledge_items))
  \/ (truthy_tags tags = false /\ query = Some ""
      /\ search_knowledge knowledge_items tags query = Ok knowledge_items)
  \/ (truthy_tags tags = false /\ query = None
      /\ search_knowledge knowledge_items tags query
         = match knowledge_items with
           | [] => Ok []
           | _ :: _ => Raise AttributeError
           end).
Proof.
  destruct (truthy_tags tags) eqn:Ht.
  - left. destruct (truthy_tags_inv tags Ht) as (ts & -> & Hne).
    exists ts. repeat split; [assumption|].
    unfold search_knowledge. now rewrite (tag_loop ts query Hne).
  - right. destruct query as [[|c q]|].
    + right. left. repeat split.
      unfold search_knowledge. now rewrite (empty_query_loop tags Ht).
    + left. split; [reflexivity|]. exists c, q. split; [reflexivity|].
      unfold search_knowledge. now rewrite (query_loop tags c q Ht).
    + right. right. repeat split.
      destruct knowledge_items as [|item rest]; [reflexivity|].
      unfold search_knowledge. cbn [Py.for_each].
      unfold search_step at 1. rewrite Ht. reflexivity.
Qed.

Lemma shares_tag_ext (ts1 ts2 : list string) (item : knowledge_item) :
  (forall tag, In tag ts1 <-> In tag ts2) ->
  shares_tag ts1 item = shares_tag ts2 item.
Proof.
  intros H. apply eq_true_iff_eq. rewrite !shares_tag_spec.
  split; intros (tag & Hin & Hi); exists tag; split; auto; now apply H.
Qed.

Lemma shares_tag_app (ts1 ts2 : list string) (item : knowledge_item) :
  shares_tag (ts1 ++ ts2) item = shares_tag ts1 item || shares_tag ts2 item.
Proof. unfold shares_tag. apply existsb_app. Qed.

End SelectorEdges.

(** X5: the search raises in exactly one situation: no tag selected, no
    query given ([None]) and a catalog that has an item; the exception is
    then [AttributeError].  In tag mode and with a query string it always
    returns a list. *)
Theorem search_raises_iff (knowledge_items : list knowledge_item)
    (tags : option (list string)) (query : option string) (e : exn) :
  Knowledge.search_knowledge knowledge_items tags query = Raise e
  <-> Knowledge.truthy_tags tags = false /\ query = None
      /\ knowledge_items <> [] /\ e = AttributeError.
Proof.
  destruct (search_cases knowledge_items tags query)
    as [(ts & -> & Hne & E) | [(Ht & c & q & -> & E)
       | [(Ht & -> & E) | (Ht & -> & E)]]]; rewrite E.
  - split; [discriminate|]. intros (Hf & _).
    rewrite (truthy_tags_nonempty ts Hne) in Hf. discriminate.
  - split; [discriminate|]. intros (_ & Hq & _). discriminate.
  - split; [discriminate|]. intros (_ & Hq & _). discriminate.
  - destruct knowledge_items as [|item rest].
    + split; [discriminate|]. intros (_ & _ & Hne & _). congruence.
    + split.
      * intros H. injection H as <-.
        repeat split; [assumption | discriminate].
      * intros (_ & _ & _ & ->). reflexivity.
Qed.

(** A list the search returns is a filter of the catalog. *)
Lemma search_ok_filter (knowledge_items : list knowledge_item)
    (tags : option (list string)) (query : option string)
    (results : list knowledge_item) :
  Knowledge.search_knowledge knowledge_items tags query = Ok results ->
  exists keep : knowledge_item -> bool,
    results = filter keep knowledge_items.
Proof.
  destruct (search_cases knowledge_items tags query)
    as [(ts & -> & Hne & E) | [(Ht & c & q & -> & E)
       | [(Ht & -> & E) | (Ht & -> & E)]]]; rewrite E; intros H.
  - injection H as <-. now eexists.
  - injection H as <-. now eexists.
  - injection H as <-. exists (fun _ => true).
    clear. induction knowledge_items; simpl; congruence.
  - destruct knowledge_items; [|discriminate].
    injection H as <-. now exists (fun _ => true).
Qed.

(** X6: whatever the mode, a list the search returns is a selection of
    the catalog: some of its items, each at most as often as in the
    catalog, in catalog order. *)
Theorem search_returns_selection (knowledge_items : list knowledge_item)
    (tags : option (list string)) (query : option string)
    (results : list knowledge_item) :
  Knowledge.search_knowledge knowledge_items tags query = Ok results ->
  exists keep : knowledge_item -> bool,
    results = filter keep knowledge_items.
Proof. apply search_ok_filter. Qed.

Lemma search_returns_selection_witness :
  exists keep : knowledge_item -> bool,
    [sample_item_2] = filter keep [sample_item_1; sample_item_2].
Proof.
  exact (search_returns_selection [sample_item_1; sample_item_2]
           None (Some "quote") [sample_item_2] eq_refl).
Defined.

(** X7: in tag mode only the set of the selected tags counts: two tag
    lists with the same elements, in any order and with any repetitions,
    give the same result. *)
Theorem search_tags_as_set (knowledge_items : list knowledge_item)
    (ts1 ts2 : list string) (q1 q2 : option string) :
  ts1 <> [] ->
  (forall tag, In tag ts1 <-> In tag ts2) ->
  Knowledge.search_knowledge knowledge_items (Some ts1) q1
  = Knowledge.search_knowledge knowledge_items (Some ts2) q2.
Proof.
  intros Hne H.
  assert (Hne2 : ts2 <> []).
  { destruct ts1 as [|t ts1]; [congruence|]. intros ->.
    apply (proj1 (H t)). now left. }
  unfold Knowledge.search_knowledge.
  rewrite (tag_loop ts1 q1 Hne), (tag_loop ts2 q2 Hne2). f_equal.
  apply filter_ext. intros item. now apply shares_tag_ext.
Qed.

Lemma search_tags_as_set_witness :
  Knowledge.search_knowledge [sample_item_1; sample_item_2]
    (Some ["urgency"; "social-proof"]) None
  = Knowledge.search_knowledge [sample_item_1; sample_item_2]
      (Some ["social-proof"; "urgency"; "urgency"]) None.
Proof.
  apply search_tags_as_set; [discriminate|].
  intros tag. simpl. tauto.
Defined.

(** X8: selecting more tags never loses a result: the result for the
    tags [ts1 ++ ts2] holds the items that share a tag with [ts1] or with
    [ts2], so every item found for [ts1] is still found. *)
Theorem search_more_tags (knowledge_items : list knowledge_item)
    (ts1 ts2 : list string) (query : option string) :
  ts1 <> [] ->
  Knowledge.search_knowledge knowledge_items (Some (ts1 ++ ts2)) query
  = Ok (filter (fun item => Knowledge.shares_tag ts1 item
                            || Knowledge.shares_tag ts2 item)
          knowledge_items)
  /\ (forall item,
        In item (filter (Knowledge.shares_tag ts1) knowledge_items) ->
        In item (filter (fun item => Knowledge.shares_tag ts1 item
                                     || Knowledge.shares_tag ts2 item)
                   knowledge_items)).
Proof.
  intros Hne. split.
  - assert (Hne' : ts1 ++ ts2 <> []) by (destruct ts1; [congruence | discriminate]).
    unfold Knowledge.search_knowledge.
    rewrite (tag_loop (ts1 ++ ts2) query Hne'). f_equal.
    apply filter_ext. intros item. apply shares_tag_app.
  - intros item. rewrite !filter_In. intros [Hin Hs].
    split; [assumption|]. now rewrite Hs.
Qed.

Lemma search_more_tags_witness :
  Knowledge.search_knowledge [sample_item_1; sample_item_2]
    (Some (["urgency"] ++ ["social-proof"])) None
  = Ok [sample_item_1; sample_item_2].
Proof.
  exact (proj1 (search_more_tags [sample_item_1; sample_item_2]
                  ["urgency"] ["social-proof"] None ltac:(discriminate))).
Defined.



(** X10: every tag offered by the tag selector (line 216: the tags of the
    catalog items) leads somewhere: searching for a tag of an item returns
    a list with that item in it. *)
Theorem search_offered_tag (knowledge_items : list knowledge_item)
    (item : knowledge_item) (tag : string) (query : option string) :
  In item knowledge_items ->
  In tag item.(tags) ->
  exists results,
    Knowledge.search_knowledge knowledge_items (Some [tag]) query
    = Ok results
    /\ In item results.
Proof.
  intros Hin Htag. eexists. split.
  - unfold Knowledge.search_knowledge.
    now rewrite (tag_loop [tag] query ltac:(discriminate)).
  - apply filter_In. split; [assumption|].
    apply shares_tag_spec. exists tag. split; [now left | assumption].
Qed.

Lemma search_offered_tag_witness :
  exists results,
    Knowledge.search_knowledge [sample_item_1; sample_item_2]
      (Some ["scarcity"]) None
    = Ok results
    /\ In sample_item_1 results.
Proof.
  apply search_offered_tag; simpl; auto.
Defined.

(** ** The prompt: what is always in it *)

Section PromptEdges.

Import PyStr Prompt.

Lemma contains_self_prefix (h b : string) : contains h (h ++ b) = true.
Proof.
  destruct h as [|c h]; [apply contains_empty|].
  change (String c h ++ b)%string with (String c (h ++ b)).
  rewrite contains_cons.
  change (String c (h ++ b)) with (String c h ++ b)%string.
  now rewrite prefix_app.
Qed.

Lemma contains_app_r (h a b : string) :
  contains h b = true -> contains h (a ++ b) = true.
Proof.
  intros H. induction a as [|x a IH]; [exact H|].
  change (String x a ++ b)%string with (String x (a ++ b)).
  rewrite contains_cons, IH. apply orb_true_r.
Qed.

Lemma contains_app_l (h a b : string) :
  contains h a = true -> contains h (a ++ b) = true.
Proof.
  induction a as [|x a IH]; intros H.
  - rewrite contains_of_empty in H. apply prefix_of_empty in H. subst h.
    apply contains_empty.
  - rewrite contains_cons in H.
    change (String x a ++ b)%string with (String x (a ++ b)).
    rewrite contains_cons. apply orb_true_intro.
    apply orb_prop in H. destruct H as [H | H].
    + left. now apply (prefix_app_l h (String x a) b).
    + right. now apply IH.
Qed.

Lemma section_of_app (l1 l2 : list knowledge_item) :
  section_of (l1 ++ l2) = (section_of l1 ++ section_of l2)%string.
Proof.
  unfold section_of. induction l1 as [|item l1 IH]; [reflexivity|].
  cbn [app fold_right]. rewrite IH. now rewrite append_assoc.
Qed.

(** The loop of lines 72-75 on any selection: identifiers that do not
    resolve add nothing. *)
Lemma context_loop_any (knowledge_items : list knowledge_item)
    (ids : list string) :
  forall ctx : string,
    fold_left
      (fun ctx knowledge_id =>
         match lookup knowledge_items knowledge_id with
         | Some item => (ctx ++ entry item)%string
         | None => ctx
         end) ids ctx
    = (ctx ++ section_of (Main.resolved knowledge_items ids))%string.
Proof.
  induction ids as [|kid ids IH]; intros ctx.
  - simpl. now rewrite append_nil_r.
  - cbn [fold_left Main.resolved flat_map]. rewrite IH, section_of_app.
    destruct (lookup knowledge_items kid) as [item|].
    + unfold section_of at 2. cbn [fold_right].
      now rewrite append_nil_r, append_assoc.
    + reflexivity.
Qed.

Lemma knowledge_context_any (knowledge_items : list knowledge_item)
    (ids : list string) :
  ids <> [] ->
  knowledge_context knowledge_items ids
  = ((header ++ nl) ++ section_of (Main.resolved knowledge_items ids))%string.
Proof.
  destruct ids as [|kid ids]; [congruence|]. intros _.
  unfold knowledge_context. apply context_loop_any.
Qed.

Lemma resolved_none (knowledge_items : list knowledge_item)
    (ids : list string) :
  (forall kid, In kid ids -> lookup knowledge_items kid = None) ->
  Main.resolved knowledge_items ids = [].
Proof.
  induction ids as [|kid ids IH]; intros H; [reflexivity|].
  cbn [Main.resolved flat_map]. rewrite (H kid (or_introl eq_refl)).
  apply IH. intros k Hk. apply H. now right.
Qed.

(** With distinct identifiers in the catalog, an item is found under its
    own identifier. *)
Lemma lookup_own_id (knowledge_items : list knowledge_item)
    (item : knowledge_item) :
  NoDup (map id knowledge_items) ->
  In item knowledge_items ->
  lookup knowledge_items item.(id) = Some item.
Proof.
  unfold lookup. induction knowledge_items as [|x items IH]; intros Hnd Hin.
  - destruct Hin.
  - cbn [map] in Hnd. apply NoDup_cons_iff in Hnd. destruct Hnd as [Hx Hnd].
    cbn [find]. destruct Hin as [-> | Hin].
    + now rewrite String.eqb_refl.
    + destruct (String.eqb (id x) (id item)) eqn:E.
      * apply String.eqb_eq in E. exfalso. apply Hx. rewrite E.
        now apply in_map.
      * now apply IH.
Qed.

Lemma has_char_app (x : ascii) (a b : string) :
  has_char x (a ++ b) = has_char x a || has_char x b.
Proof.
  induction a as [|k a IH]; [reflexivity|].
  simpl. rewrite IH. apply orb_assoc.
Qed.

End PromptEdges.

(** X11: identifiers of the selection that are not in the catalog are
    skipped without an error: the knowledge context of a non-empty
    selection is the header line followed by the entries of the
    identifiers that resolve, in selection order, and it is the header
    line alone when none resolves. *)
Theorem prompt_skips_unknown_ids (knowledge_items : list knowledge_item)
    (ids : list string) :
  ids <> [] ->
  knowledge_context knowledge_items ids
  = ((header ++ nl)
     ++ section_of (Main.resolved knowledge_items ids))%string
  /\ ((forall kid, In kid ids -> lookup knowledge_items kid = None) ->
      knowledge_context knowledge_items ids = (header ++ nl)%string).
Proof.
  intros Hne. split.
  - now apply knowledge_context_any.
  - intros H. rewrite (knowledge_context_any _ _ Hne).
    rewrite (resolved_none _ _ H). apply append_nil_r.
Qed.

Lemma prompt_skips_unknown_ids_witness :
  knowledge_context [sample_item_1; sample_item_2] ["k9"; "k2"; "k0"]
  = ((header ++ nl) ++ section_of [sample_item_2])%string.
Proof.
  exact (proj1 (prompt_skips_unknown_ids [sample_item_1; sample_item_2]
                  ["k9"; "k2"; "k0"] ltac:(discriminate))).
Defined.

(** X12: a non-empty selection always puts the header in the prompt, also
    when none of its identifiers resolves. *)
Theorem prompt_header_when_selected (knowledge_items : list knowledge_item)
    (p : product_details) (a : audience_details) (c : customization)
    (ids : list string) :
  ids <> [] ->
  PyStr.contains header (prompt knowledge_items p a c ids) = true.
Proof.
  intros Hne. unfold prompt, line.
  rewrite (knowledge_context_any _ _ Hne), !append_assoc.
  apply contains_app_r, contains_app_r, contains_self_prefix.
Qed.

Lemma prompt_header_when_selected_witness :
  PyStr.contains header
    (prompt [sample_item_1] sample_product sample_audience sample_style
       ["unknown"])
  = true.
Proof.
  apply prompt_header_when_selected. discriminate.
Defined.

(** X13: the prompt carries each of the ten supplied values verbatim,
    whatever the selection. *)
Theorem prompt_contains_fields (knowledge_items : list knowledge_item)
    (p : product_details) (a : audience_details) (c : customization)
    (ids : list string) :
  Forall (fun f => PyStr.contains f (prompt knowledge_items p a c ids) = true)
    (field_values p a c).
Proof.
  unfold field_values.
  repeat constructor;
    unfold prompt; apply contains_app_l;
    unfold prompt_head, line; rewrite !append_assoc;
    repeat first [ apply contains_self_prefix | apply contains_app_r ].
Qed.

(** X14: the selection made from search results (lines 219-224) always
    resolves in the prompt construction: every selected identifier is the
    identifier of a catalog item that the lookup finds, and when the
    identifiers of the catalog are distinct the snippets of the prompt are
    exactly the ticked results, in catalog order. *)
Theorem selection_resolves (knowledge_items : list knowledge_item)
    (tags : option (list string)) (query : option string)
    (results : list knowledge_item) (checked : string -> bool) :
  Knowledge.search_knowledge knowledge_items tags query = Ok results ->
  (forall kid, In kid (Main.selected_ids results checked) ->
     exists item, lookup knowledge_items kid = Some item
                  /\ In item knowledge_items /\ item.(id) = kid)
  /\ (NoDup (map id knowledge_items) ->
      Main.resolved knowledge_items (Main.selected_ids results checked)
      = filter (fun item => checked item.(id)) results).
Proof.
  intros H. destruct (search_ok_filter _ _ _ _ H) as [keep ->].
  unfold Main.selected_ids. split.
  - intros kid Hin. apply in_map_iff in Hin.
    destruct Hin as (x & <- & Hx). apply filter_In in Hx.
    destruct Hx as [Hx _]. apply filter_In in Hx. destruct Hx as [Hx _].
    destruct (lookup knowledge_items (id x)) as [item|] eqn:E.
    + exists item. destruct (lookup_id _ _ _ E) as [Hi He]. auto.
    + exfalso. unfold lookup in E.
      apply (find_none _ _ E x) in Hx. now rewrite String.eqb_refl in Hx.
  - intros Hnd.
    assert (G : forall l, (forall x, In x l -> In x knowledge_items) ->
                Main.resolved knowledge_items (map id l) = l).
    { induction l as [|x l IH]; intros Hl; [reflexivity|].
      cbn [map Main.resolved flat_map].
      rewrite (lookup_own_id knowledge_items x Hnd (Hl x (or_introl eq_refl))).
      cbn [app]. f_equal. apply IH. intros y Hy. apply Hl. now right. }
    apply G. intros x Hx. apply filter_In in Hx. destruct Hx as [Hx _].
    apply filter_In in Hx. tauto.
Qed.

Lemma selection_resolves_witness :
  Main.resolved [sample_item_1; sample_item_2]
    (Main.selected_ids [sample_item_1; sample_item_2]
       (fun kid => String.eqb kid "k2"))
  = [sample_item_2].
Proof.
  refine (proj2 (selection_resolves [sample_item_1; sample_item_2]
                   (Some ["urgency"; "social-proof"]) None
                   [sample_item_1; sample_item_2]
                   (fun kid => String.eqb kid "k2") eq_refl) _).
  repeat constructor; simpl; intuition discriminate.
Defined.

(** ** The download names *)

(** X15: for a time stamp without a dot, as [strftime] with digits and an
    underscore gives it, the text download has the name of the Markdown
    download with the extension [.txt] in place of [.md]. *)
Theorem text_filename_extension (timestamp : string) :
  PyStr.has_char "."%char timestamp = false ->
  Main.markdown_filename timestamp
  = ("sales_letter_" ++ timestamp ++ ".md")%string
  /\ Main.text_filename timestamp
     = ("sales_letter_" ++ timestamp ++ ".txt")%string.
Proof.
  intros H. split; [reflexivity|].
  unfold Main.text_filename, Main.markdown_filename.
  replace ("sales_letter_" ++ timestamp ++ ".md")%string
    with (("sales_letter_" ++ timestamp) ++ ".md" ++ "")%string
    by now rewrite append_assoc.
  rewrite replace_leftmost.
  - now rewrite append_assoc.
  - discriminate.
  - intros x y E Hx.
    assert (Hc : PyStr.has_char "."%char x = false).
    { apply (f_equal (PyStr.has_char "."%char)) in E.
      rewrite !has_char_app, H in E.
      change (PyStr.has_char "."%char "sales_letter_") with false in E.
      symmetry in E. apply orb_false_elim in E. tauto. }
    destruct x as [|k x]; [congruence|].
    change (PyStr.has_char "."%char (String k x))
      with (Ascii.eqb "."%char k || PyStr.has_char "."%char x) in Hc.
    apply orb_false_elim in Hc. destruct Hc as [Hk _].
    change (String k x ++ ".md" ++ "")%string
      with (String k (x ++ ".md" ++ "")).
    cbn [prefix]. destruct (ascii_dec "."%char k) as [<-|N]; [|reflexivity].
    now rewrite Ascii.eqb_refl in Hk.
Qed.

Lemma text_filename_extension_witness :
  Main.text_filename "20240131_235959" = "sales_letter_20240131_235959.txt".
Proof.
  exact (proj2 (text_filename_extension "20240131_235959" eq_refl)).
Defined.

(** ** The session of the wizard *)

Ltac run_cases H :=
  unfold Session.handle, Session.step_shown in H;
  repeat match type of H with
         | (if ?b then _ else _) = _ =>
             let E := fresh "E" in destruct b eqn:E; try discriminate H
         | match ?x with _ => _ end = _ =>
             let E := fresh "E" in destruct x eqn:E; try discriminate H
         | (let '(_, _) := ?x in _) = _ =>
             let E := fresh "E" in destruct x eqn:E; try discriminate H
         end;
  try (injection H as <- <-).

Section SessionFacts.

Variable time : Type.
Variable steps : list string.
Variable knowledge_items : list knowledge_item.
Variable prohibited_config : yaml.
Variable service : string -> string + string.
Variable describe : exn -> string.

Local Abbreviation state := (Session.state time).
Local Abbreviation event := (Session.event time).
Local Abbreviation initial := (Session.initial time).
Local Abbreviation handle :=
  (Session.handle time steps knowledge_items prohibited_config service
     describe).
Local Abbreviation attempt :=
  (Session.attempt knowledge_items prohibited_config service).
Local Abbreviation reachable :=
  (Session.reachable time steps knowledge_items prohibited_config service
     describe).
Local Abbreviation results_of := (Session.results_of time).

(** One run keeps the step between the first step and the last one that
    is configured or has a form. *)
Lemma run_keeps_step_range (ev : event) (st st' : state)
    (d : Session.display) :
  handle ev st = Some (st', d) ->
  (0 <= Session.current_step time st
   <= Z.max 2 (Z.of_nat (List.length steps) - 1))%Z ->
  (0 <= Session.current_step time st'
   <= Z.max 2 (Z.of_nat (List.length steps) - 1))%Z.
Proof.
  intros H Hr. destruct ev; run_cases H; cbn [Session.current_step
    Session.set_step Session.set_form Session.store];
    repeat match goal with
           | E : (_ && _)%bool = true |- _ =>
               apply andb_prop in E; destruct E
           | E : (_ <? _)%Z = true |- _ => apply Z.ltb_lt in E
           | E : (_ =? _)%Z = true |- _ => apply Z.eqb_eq in E
           end; lia.
Qed.

(** One run that shows an error or ends in an exception changes neither
    the step nor the stored results. *)
Lemma run_error_keeps (ev : event) (st st' : state) (d : Session.display) :
  handle ev st = Some (st', d) ->
  d <> Session.Quiet ->
  Session.current_step time st' = Session.current_step time st
  /\ results_of st' = results_of st.
Proof.
  intros H Hd. destruct ev; run_cases H; try congruence;
    split; reflexivity.
Qed.

(** One run keeps the four result attributes set together. *)
Lemma run_keeps_results_together (ev : event) (st st' : state)
    (d : Session.display) :
  handle ev st = Some (st', d) ->
  (results_of st = (None, None, None, None)
   \/ exists clean elapsed detected ids,
        results_of st = (Some clean, Some elapsed, Some detected, Some ids)) ->
  (results_of st' = (None, None, None, None)
   \/ exists clean elapsed detected ids,
        results_of st' = (Some clean, Some elapsed, Some detected, Some ids)).
Proof.
  intros H Hr. destruct ev; run_cases H; try exact Hr.
  right. unfold results_of. cbn. now eexists _, _, _, _.
Qed.

(** X16: the step of the session never leaves the wizard: in every
    reachable state it is at least 0 and at most the larger of 2 and the
    last configured step, so with three or more configured steps it is the
    index of a configured step (the progress of line 144 stays below 1 and
    the labels read at lines 164, 197 and 243 exist). *)
Theorem session_step_in_range (st : state) :
  reachable st ->
  (0 <= Session.current_step time st
   <= Z.max 2 (Z.of_nat (List.length steps) - 1))%Z
  /\ (3 <= List.length steps ->
      (Session.current_step time st < Z.of_nat (List.length steps))%Z).
Proof.
  intros Hr.
  assert (H : (0 <= Session.current_step time st
               <= Z.max 2 (Z.of_nat (List.length steps) - 1))%Z).
  { induction Hr as [|st st' ev d _ IH Hrun]; [cbn; lia|].
    now apply (run_keeps_step_range ev st st' d). }
  split; [exact H | lia].
Qed.

(** X17: the four attributes of a result are set together: in every
    reachable state either none of [generated_letter], [generation_time],
    [detected_words] and [selected_knowledge] is set or all four are, so
    the result display never reads an attribute that is missing. *)
Theorem session_results_together (st : state) :
  reachable st ->
  results_of st = (None, None, None, None)
  \/ exists clean elapsed detected ids,
       results_of st = (Some clean, Some elapsed, Some detected, Some ids).
Proof.
  induction 1 as [|st st' ev d _ IH Hrun]; [now left|].
  now apply (run_keeps_results_together ev st st' d).
Qed.

(** X18: a run that shows an error message or ends in an exception leaves
    the step and the stored result of an earlier generation untouched. *)
Theorem session_error_keeps_result (ev : event) (st st' : state)
    (d : Session.display) :
  handle ev st = Some (st', d) ->
  d <> Session.Quiet ->
  Session.current_step time st' = Session.current_step time st
  /\ results_of st' = results_of st.
Proof. apply run_error_keeps. Qed.

(** X19: a failure of the generation service is reported with the prefix
    twice: [generate_sales_letter] wraps the cause in "Generation failed: "
    and the handler of line 319 puts the same prefix before it. *)
Theorem session_failure_message (st : state)
    (name type features value audience pains outcomes : string)
    (ids : option (list string)) (t l e cause : string) (elapsed : time) :
  Session.step_shown time steps st 2 = true ->
  Form.product_name (Session.form_data time st) = Some name ->
  Form.product_type (Session.form_data time st) = Some type ->
  Form.key_features (Session.form_data time st) = Some features ->
  Form.uvp (Session.form_data time st) = Some value ->
  Form.primary_audience (Session.form_data time st) = Some audience ->
  Form.pain_points (Session.form_data time st) = Some pains ->
  Form.desired_outcomes (Session.form_data time st) = Some outcomes ->
  Form.selected_knowledge (Session.form_data time st) = ids ->
  service
    (prompt knowledge_items
       (Build_product_details name type features value)
       (Build_audience_details audience pains outcomes)
       (Build_customization t l e)
       (match ids with Some ids => ids | None => [] end))
  = inr cause ->
  exists st',
    handle (Session.Generate time t l e elapsed) st
    = Some (st',
            Session.Error
              ("Generation failed: Generation failed: " ++ cause))
    /\ results_of st' = results_of st.
Proof.
  intros Hs H1 H2 H3 H4 H5 H6 H7 H8 Hf.
  unfold Session.handle. rewrite Hs.
  unfold Session.attempt, Session.generate_sales_letter.
  cbn [Session.form_data Session.set_form Form.update_style
       Form.product_name Form.product_type Form.key_features Form.uvp
       Form.primary_audience Form.pain_points Form.desired_outcomes
       Form.selected_knowledge Form.tone Form.length Form.emphasis].
  rewrite H1, H2, H3, H4, H5, H6, H7, H8.
  cbn [Session.item Session.and_then]. rewrite Hf.
  cbn [Session.and_then Session.message_of].
  eexists. split; reflexivity.
Qed.

(** X20: the navigation goes past the forms: with three or more
    configured steps two presses of Next lead from the initial state to
    the last form without anything having been entered, and generating
    there is answered by the message of the [KeyError] for
    [product_name]; no result is stored. *)
Theorem session_next_skips_forms (t l e : string) (elapsed : time) :
  3 <= List.length steps ->
  exists s1 s2 s3,
    handle (Session.Next time) initial = Some (s1, Session.Quiet)
    /\ handle (Session.Next time) s1 = Some (s2, Session.Quiet)
    /\ handle (Session.Generate time t l e elapsed) s2
       = Some (s3, Session.Error "Generation failed: 'product_name'")
    /\ results_of s3 = (None, None, None, None).
Proof.
  intros Hn. unfold Session.handle, Session.step_shown.
  cbn [Session.current_step Session.initial Session.set_step].
  assert (E0 : (List.length steps =? 0)%nat = false)
    by (apply Nat.eqb_neq; lia).
  assert (E1 : (0 <? Z.of_nat (List.length steps) - 1)%Z = true)
    by (apply Z.ltb_lt; lia).
  assert (E2 : (0 + 1 <? Z.of_nat (List.length steps) - 1)%Z = true)
    by (apply Z.ltb_lt; lia).
  assert (E3 : (2 <? List.length steps)%nat = true)
    by (apply Nat.ltb_lt; lia).
  rewrite E0, E1. cbn [negb andb]. eexists _, _, _.
  split; [reflexivity|]. cbn [Session.current_step Session.set_step].
  rewrite E2. split; [reflexivity|].
  cbn [Session.current_step Session.set_step]. rewrite E3.
  split; reflexivity.
Qed.


(** X22: on a catalog that has an item, a run that handles the audience
    form with no tag selected ends in [AttributeError] at the search of
    line 219, before the fields are looked at: nothing is validated and
    nothing is stored, however the fields are filled. *)
Theorem session_audience_without_tags (st : state)
    (audience pains outcomes : string) (checked : string -> bool) :
  Session.step_shown time steps st 1 = true ->
  knowledge_items <> [] ->
  handle (Session.SaveAudience time audience pains outcomes [] checked) st
  = Some (st, Session.Uncaught AttributeError).
Proof.
  intros Hs Hne. unfold Session.handle. rewrite Hs.
  destruct knowledge_items as [|item rest]; [congruence|].
  reflexivity.
Qed.

(** X23: an empty answer of the service is lost without a word: with
    well-formed rules whose terms are not empty, generating stores the
    empty letter and shows no error, and the result section stays off the
    page because the empty string is false at line 322. *)
Theorem session_empty_answer (st : state)
    (name type features value audience pains outcomes : string)
    (ids : option (list string)) (t l e : string) (elapsed : time) :
  Session.step_shown time steps st 2 = true ->
  Form.product_name (Session.form_data time st) = Some name ->
  Form.product_type (Session.form_data time st) = Some type ->
  Form.key_features (Session.form_data time st) = Some features ->
  Form.uvp (Session.form_data time st) = Some value ->
  Form.primary_audience (Session.form_data time st) = Some audience ->
  Form.pain_points (Session.form_data time st) = Some pains ->
  Form.desired_outcomes (Session.form_data time st) = Some outcomes ->
  Form.selected_knowledge (Session.form_data time st) = ids ->
  Scrubber.well_formed prohibited_config = true ->
  (forall w, In w (Scrubber.words_of prohibited_config) -> w <> "") ->
  service
    (prompt knowledge_items
       (Build_product_details name type features value)
       (Build_audience_details audience pains outcomes)
       (Build_customization t l e)
       (match ids with Some ids => ids | None => [] end))
  = inl "" ->
  exists st',
    handle (Session.Generate time t l e elapsed) st
    = Some (st', Session.Quiet)
    /\ Session.generated_letter time st' = Some ""
    /\ Session.results_shown time st' = false.
Proof.
  intros Hs H1 H2 H3 H4 H5 H6 H7 H8 Hwf Hne Hf.
  assert (Hd : Scrubber.detect_prohibited_words prohibited_config ""
               = Ok ("", [])).
  { rewrite (detect_refines _ _ Hwf). unfold Scrubber.scrub.
    rewrite scrub_nothing_detected; [reflexivity|].
    intros w Hin. specialize (Hne w Hin).
    destruct w; [congruence | reflexivity]. }
  unfold Session.handle. rewrite Hs.
  unfold Session.attempt, Session.generate_sales_letter.
  cbn [Session.form_data Session.set_form Form.update_style
       Form.product_name Form.product_type Form.key_features Form.uvp
       Form.primary_audience Form.pain_points Form.desired_outcomes
       Form.selected_knowledge Form.tone Form.length Form.emphasis].
  rewrite H1, H2, H3, H4, H5, H6, H7, H8.
  cbn [Session.item Session.and_then]. rewrite Hf.
  cbn [Session.and_then]. rewrite Hd.
  eexists. repeat split.
Qed.

End SessionFacts.

Lemma session_step_in_range_witness :
  (0 <= 1 <= 2)%Z /\ (1 < 3)%Z.
Proof.
  destruct (session_step_in_range nat sample_steps [sample_item_1]
              sample_rules stub_service sample_describe
              (Session.set_step nat (Session.initial nat) 1)
              (Session.reachable_run nat sample_steps [sample_item_1]
                 sample_rules stub_service sample_describe
                 (Session.initial nat) _ (Session.Next nat) Session.Quiet
                 (Session.reachable_initial nat sample_steps
                    [sample_item_1] sample_rules stub_service
                    sample_describe)
                 eq_refl)) as [H1 H2].
  split; [exact H1 | apply H2; apply le_n].
Defined.

Lemma session_results_together_witness :
  Session.results_of nat (Session.set_step nat (Session.initial nat) 1)
  = (None, None, None, None)
  \/ exists clean elapsed detected ids,
       Session.results_of nat (Session.set_step nat (Session.initial nat) 1)
       = (Some clean, Some elapsed, Some detected, Some ids).
Proof.
  apply (session_results_together nat sample_steps [sample_item_1]
           sample_rules stub_service sample_describe).
  apply (Session.reachable_run nat sample_steps [sample_item_1]
           sample_rules stub_service sample_describe
           (Session.initial nat) _ (Session.Next nat) Session.Quiet).
  - apply Session.reachable_initial.
  - reflexivity.
Defined.

Lemma session_error_keeps_result_witness :
  Session.current_step nat (Session.initial nat) = 0%Z
  /\ Session.results_of nat (Session.initial nat)
     = Session.results_of nat (Session.initial nat).
Proof.
  apply (session_error_keeps_result nat sample_steps [sample_item_1]
           sample_rules stub_service sample_describe
           (Session.SaveProduct nat "" "Course" "lessons" "short")
           (Session.initial nat) (Session.initial nat)
           (Session.Error "Please fill in all required fields (*)")).
  - reflexivity.
  - discriminate.
Defined.

Lemma session_failure_message_witness :
  exists st',
    Session.handle nat sample_steps [sample_item_1] sample_rules
      failing_service sample_describe
      (Session.Generate nat "confident" "short" "benefits" 7)
      sample_session
    = Some (st',
            Session.Error
              "Generation failed: Generation failed: quota exceeded")
    /\ Session.results_of nat st' = Session.results_of nat sample_session.
Proof.
  apply (session_failure_message nat sample_steps [sample_item_1]
           sample_rules failing_service sample_describe sample_session
           "Focus Planner" "Digital Product" "daily templates"
           "built by productivity coaches" "remote workers" "distraction"
           "more deep work" (Some []) "confident" "short" "benefits"
           "quota exceeded" 7); reflexivity.
Defined.

Lemma session_next_skips_forms_witness :
  exists s1 s2 s3,
    Session.handle nat sample_steps [sample_item_1] sample_rules
      stub_service sample_describe (Session.Next nat) (Session.initial nat)
    = Some (s1, Session.Quiet)
    /\ Session.handle nat sample_steps [sample_item_1] sample_rules
         stub_service sample_describe (Session.Next nat) s1
       = Some (s2, Session.Quiet)
    /\ Session.handle nat sample_steps [sample_item_1] sample_rules
         stub_service sample_describe
         (Session.Generate nat "confident" "short" "benefits" 7) s2
       = Some (s3, Session.Error "Generation failed: 'product_name'")
    /\ Session.results_of nat s3 = (None, None, None, None).
Proof.
  apply (session_next_skips_forms nat sample_steps [sample_item_1]
           sample_rules stub_service sample_describe
           "confident" "short" "benefits" 7).
  apply le_n.
Defined.


Lemma session_audience_without_tags_witness :
  Session.handle nat sample_steps [sample_item_1] sample_rules
    stub_service sample_describe
    (Session.SaveAudience nat "remote workers" "distraction"
       "more deep work" [] (fun _ => true))
    (Session.set_step nat (Session.initial nat) 1)
  = Some (Session.set_step nat (Session.initial nat) 1,
          Session.Uncaught AttributeError).
Proof.
  apply (session_audience_without_tags nat sample_steps [sample_item_1]
           sample_rules stub_service sample_describe).
  - reflexivity.
  - discriminate.
Defined.

Lemma session_empty_answer_witness :
  exists st',
    Session.handle nat sample_steps [sample_item_1] sample_rules
      silent_service sample_describe
      (Session.Generate nat "confident" "short" "benefits" 7)
      sample_session
    = Some (st', Session.Quiet)
    /\ Session.generated_letter nat st' = Some ""
    /\ Session.results_shown nat st' = false.
Proof.
  apply (session_empty_answer nat sample_steps [sample_item_1]
           sample_rules silent_service sample_describe sample_session
           "Focus Planner" "Digital Product" "daily templates"
           "built by productivity coaches" "remote workers" "distraction"
           "more deep work" (Some []) "confident" "short" "benefits" 7);
    try reflexivity.
  intros w [<-|[]]. discriminate.
Defined.
